(** * horovod/_keras/__init__.py: the Keras distributed optimizer wrapper

    A shallow embedding of [_make_allreduce_grads_fn],
    [create_distributed_optimizer] (with the methods of the class
    [_DistributedOptimizer] it generates) and [load_model].

    The module talks to collaborators that live in other files
    (horovod.tensorflow, the two local gradient aggregation helpers, the
    profile helper) and in other packages (TensorFlow, Keras).  Every call
    to one of them is an external call of a small free monad: the program
    issues the call, an environment answers it (with a value or with an
    exception), and the interpreter records call, answer and the stack of
    [with] blocks that were open.  Theorems quantify over the environment. *)

From Stdlib Require Import ZArith NArith Lia Ascii String.
From stdpp Require Import base option list strings gmap fin_maps.

Set Implicit Arguments.
Set Default Proof Using "Type".

(** ** Values *)

(** An opaque Python object (device selector, compression scheme, loss,
    session, positional argument, ...): the code only passes these on. *)
Inductive pyobj : Type := PyObj (n : N).

(** Graph elements.  [Tensor] is a dense [tf.Tensor], [IndexedSlices] a
    sparse [tf.IndexedSlices], [Operation] a [tf.Operation]. *)
Inductive tensor : Type :=
  | Tensor (n : N)
  | IndexedSlices (n : N)
  | Operation (n : N).

(** A gradient is a tensor or [None]. *)
Definition grad : Type := option tensor.

(** [isinstance(grad, tf.IndexedSlices)] *)
Definition is_IndexedSlices (t : tensor) : bool :=
  match t with IndexedSlices _ => true | _ => false end.

Definition is_Tensor (t : tensor) : bool :=
  match t with Tensor _ => true | _ => false end.

(** [grad is not None] *)
Definition is_not_None (g : grad) : bool :=
  match g with Some _ => true | None => false end.

Inductive exn : Type :=
  | Exception (msg : string)
  | TypeError (msg : string)
  | ValueError (msg : string)
  | AttributeError (msg : string)
  | ExternalError (n : N).

(** Keyword arguments and configurations: name/value pairs, in order. *)
Definition kwargs_t : Type := list (string * pyobj).

(** Python classes, as far as this module looks at them: a class defined
    somewhere ([__name__], [__module__]), or the class that
    [type(name, (base,), dict(_DistributedOptimizer.__dict__))] creates. *)
Inductive pyclass : Type :=
  | Class (name : string) (module : string)
  | TypeNew (name : string) (base : pyclass).

Definition __name__ (c : pyclass) : string :=
  match c with Class n _ => n | TypeNew n _ => n end.

(** [_DistributedOptimizer.__dict__] carries ['__module__'], so the class
    made by [type] reports the module of this file. *)
Definition __module__ (c : pyclass) : string :=
  match c with Class _ m => m | TypeNew _ _ => "horovod._keras" end.

(** [cls.__base__] *)
Definition __base__ (c : pyclass) : pyclass :=
  match c with Class _ _ => Class "object" "builtins" | TypeNew _ b => b end.

(** An optimizer instance handed to [create_distributed_optimizer]: its
    class, and an opaque identity standing for everything else it holds. *)
Record optimizer : Type := Optimizer {
  opt_class : pyclass;
  opt_ident : N
}.

(** The closure [allreduce_grads] returned by [_make_allreduce_grads_fn]:
    the five variables it captures. *)
Record allreduce_grads_fn : Type := AllreduceGradsFn {
  fn_name_scope : string;
  fn_sparse_as_dense : bool;
  fn_device_dense : pyobj;
  fn_device_sparse : pyobj;
  fn_compression : pyobj
}.

(** The closure built in [apply_gradients], a lambda that calls the
    [apply_gradients] of the base class with the positional and keyword
    arguments of the call: the variables it captures. *)
Record update_fn : Type := SuperApplyGradients {
  upd_base : pyclass;
  upd_args : list pyobj;
  upd_kwargs : kwargs_t
}.

(** Handles of the helper objects the constructors return. *)
Inductive agg_helper : Type := AggHelper (id : N).
Inductive profile_helper : Type := ProfileHelper (id : N).

(** ** External calls *)

Inductive call : Type :=
  (* horovod.tensorflow *)
  | hvd_size
  | hvd__executing_eagerly
  | hvd_allreduce (t : tensor) (device_dense device_sparse compression : pyobj)
  (* tensorflow *)
  | tf_convert_to_tensor (t : tensor)
  | tf_identity (t : tensor)
  | tf_get_session
  (* horovod.common.gradient_aggregation, gradient_aggregation_eager *)
  | LocalGradientAggregationHelper
      (aggregation_frequency : pyobj) (fn : allreduce_grads_fn)
      (sparse_as_dense : bool) (grad_updated_sizes_dict : pyobj)
      (average_aggregated_gradients : pyobj)
  | LocalGradientAggregationHelperEager
      (aggregation_frequency : pyobj) (fn : allreduce_grads_fn)
      (sparse_as_dense : bool) (average_aggregated_gradients : pyobj)
  | agg_init_aggregation_vars (h : agg_helper) (grads : list grad) (sess : pyobj)
  | agg_compute_gradients (h : agg_helper) (grads : list grad)
  | agg_apply_gradients (h : agg_helper) (f : update_fn)
      (args : list pyobj) (kwargs : kwargs_t)
  (* horovod.common.tf_profile *)
  | TFProfileHelper (profile_frequency profile_filename : pyobj)
  | profile_start (p : profile_helper)
  | profile_end (p : profile_helper)
  (* the wrapped Keras optimizer class *)
  | super___init__ (base : pyclass) (kwargs : kwargs_t)
  | super_get_gradients (base : pyclass) (loss params : pyobj)
  | super_apply_gradients (base : pyclass) (args : list pyobj) (kwargs : kwargs_t)
  | optimizer_get_config (o : optimizer).

(** What each call returns.  [tf.convert_to_tensor] returns a dense
    [tf.Tensor]: its answer is the number [n] of [Tensor n]. *)
Definition resp (c : call) : Type :=
  match c with
  | hvd_size => Z
  | hvd__executing_eagerly => bool
  | hvd_allreduce _ _ _ _ => tensor
  | tf_convert_to_tensor _ => N
  | tf_identity _ => tensor
  | tf_get_session => pyobj
  | LocalGradientAggregationHelper _ _ _ _ _ => agg_helper
  | LocalGradientAggregationHelperEager _ _ _ _ => agg_helper
  | agg_init_aggregation_vars _ _ _ => unit
  | agg_compute_gradients _ _ => list grad
  | agg_apply_gradients _ _ _ _ => pyobj
  | TFProfileHelper _ _ => profile_helper
  | profile_start _ => tensor
  | profile_end _ => tensor
  | super___init__ _ _ => pyobj
  | super_get_gradients _ _ _ => list grad
  | super_apply_gradients _ _ _ => pyobj
  | optimizer_get_config _ => kwargs_t
  end.

(** An environment answers every call, from a state of its own. *)
Record env : Type := Env {
  env_state : Type;
  handle : forall c : call, env_state -> (exn + resp c) * env_state
}.

(** ** Programs *)

(** The [with] blocks of the module. *)
Inductive scope : Type :=
  | name_scope (name : string)
  | control_dependencies (control_inputs : list tensor).

(** A program over an instance state [St] (the attributes of [self]). *)
Inductive prog (St : Type) : Type -> Type :=
  | Ret {A} (a : A) : prog St A
  | Raise {A} (e : exn) : prog St A
  | GetSelf {A} (k : St -> prog St A) : prog St A
  | SetSelf {A} (s : St) (k : prog St A) : prog St A
  | Ext {A} (c : call) (k : resp c -> prog St A) : prog St A
  | With {A B} (s : scope) (body : prog St B) (k : B -> prog St A) : prog St A.

Arguments Ret {St A} a.
Arguments Raise {St A} e.
Arguments GetSelf {St A} k.
Arguments SetSelf {St A} s k.
Arguments Ext {St A} c k.
Arguments With {St A B} s body k.

Fixpoint bind {St A B} (p : prog St A) : (A -> prog St B) -> prog St B :=
  match p in prog _ T return (T -> prog St B) -> prog St B with
  | Ret a => fun f => f a
  | Raise e => fun _ => Raise e
  | GetSelf k => fun f => GetSelf (fun s => bind (k s) f)
  | SetSelf s k => fun f => SetSelf s (bind k f)
  | Ext c k => fun f => Ext c (fun r => bind (k r) f)
  | With s body k => fun f => With s body (fun b => bind (k b) f)
  end.

Notation "x <- p ;; q" := (bind p (fun x => q))
  (at level 100, p at next level, right associativity).
Notation "p ;;; q" := (bind p (fun _ => q))
  (at level 100, right associativity).

Definition ext {St} (c : call) : prog St (resp c) := Ext c Ret.
Definition get_self {St} : prog St St := GetSelf Ret.
Definition modify_self {St} (f : St -> St) : prog St unit :=
  GetSelf (fun s => SetSelf (f s) (Ret tt)).
Definition with_ {St A} (s : scope) (body : prog St A) : prog St A :=
  With s body Ret.

(** One record of the log: the [with] blocks open at the call (innermost
    first), the call, and the answer. *)
Record entry : Type := Entry {
  e_ctx : list scope;
  e_call : call;
  e_resp : exn + resp e_call
}.

Record result (St S A : Type) : Type := Result {
  outcome : exn + A;
  self_after : St;
  env_after : S;
  emitted : list entry
}.

Section Run.
Context (E : env).
Context {St : Type}.

(** The interpreter.  An exception, raised by the program or answered by
    the environment, ends the run; the state of the instance at that
    point is kept, as a Python object keeps its attributes. *)
Fixpoint run {A} (p : prog St A) (ctx : list scope) (self : St)
    (s : env_state E) : result St (env_state E) A :=
  match p in prog _ T return result St (env_state E) T with
  | Ret a => Result (inr a) self s []
  | Raise e => Result (inl e) self s []
  | GetSelf k => run (k self) ctx self s
  | SetSelf self' k => run k ctx self' s
  | Ext c k =>
      let '(r, s1) := handle E c s in
      match r with
      | inl e => Result (inl e) self s1 [Entry ctx c r]
      | inr v =>
          let res := run (k v) ctx self s1 in
          Result (outcome res) (self_after res) (env_after res)
                 (Entry ctx c r :: emitted res)
      end
  | With sc body k =>
      let res := run body (sc :: ctx) self s in
      match outcome res with
      | inl e => Result (inl e) (self_after res) (env_after res) (emitted res)
      | inr b =>
          let res' := run (k b) ctx (self_after res) (env_after res) in
          Result (outcome res') (self_after res') (env_after res')
                 (emitted res ++ emitted res')
      end
  end.
End Run.

(** ** _make_allreduce_grads_fn *)

(** The [for] loop of [allreduce_grads]; [averaged_gradients] is the list
    the loop appends to. *)
Fixpoint allreduce_grads_loop {St} (fn : allreduce_grads_fn)
    (gradients averaged_gradients : list grad) : prog St (list grad) :=
  match gradients with
  | [] => Ret averaged_gradients
  | grad :: gradients' =>
      match grad with
      | Some g =>
          g' <- (if fn_sparse_as_dense fn && is_IndexedSlices g
                 then n <- ext (tf_convert_to_tensor g) ;; Ret (Tensor n)
                 else Ret g) ;;
          avg_grad <- ext (hvd_allreduce g' (fn_device_dense fn)
                             (fn_device_sparse fn) (fn_compression fn)) ;;
          allreduce_grads_loop fn gradients'
            (averaged_gradients ++ [Some avg_grad])
      | None =>
          allreduce_grads_loop fn gradients' (averaged_gradients ++ [None])
      end
  end.

Definition allreduce_grads {St} (fn : allreduce_grads_fn)
    (gradients : list grad) : prog St (list grad) :=
  with_ (name_scope (fn_name_scope fn))
    (allreduce_grads_loop fn gradients []).

Definition _make_allreduce_grads_fn
    (name_scope : string) (sparse_as_dense : bool)
    (device_dense device_sparse compression : pyobj) : allreduce_grads_fn :=
  AllreduceGradsFn name_scope sparse_as_dense device_dense device_sparse
    compression.

(** ** _DistributedOptimizer *)

(** The attributes of an instance that the class itself owns, and the
    part of the base class.  [grads] is unset until [get_gradients] or
    [_aggregate_gradients] assigns it; [_profile_helper] is assigned in
    deferred mode only.  [base_state] stands for everything the
    initialiser of the wrapped class set up on the object.  [self._name]
    is not among the fields: [__init__] assigns it first and reads it once,
    to name the reduction scope, but the base initialiser runs afterwards
    on the same object and may assign it again (the one of tf.keras does),
    and no method of the class reads it later; what it holds in the end
    belongs to [base_state]. *)
Record wrapper : Type := Wrapper {
  __class__ : pyclass;
  _device_dense : pyobj;
  _device_sparse : pyobj;
  _compression : pyobj;
  _sparse_as_dense : bool;
  _aggregated_gradients : bool;
  _executing_eagerly : bool;
  _agg_helper : agg_helper;
  _profile_helper : option profile_helper;
  grads : option (list grad);
  base_state : pyobj
}.

Definition set__aggregated_gradients (b : bool) (w : wrapper) : wrapper :=
  Wrapper (__class__ w) (_device_dense w) (_device_sparse w)
    (_compression w) (_sparse_as_dense w) b (_executing_eagerly w)
    (_agg_helper w) (_profile_helper w) (grads w) (base_state w).

Definition set_grads (g : list grad) (w : wrapper) : wrapper :=
  Wrapper (__class__ w) (_device_dense w) (_device_sparse w)
    (_compression w) (_sparse_as_dense w) (_aggregated_gradients w)
    (_executing_eagerly w) (_agg_helper w) (_profile_helper w) (Some g)
    (base_state w).

(** Reading [self.grads] and [self._profile_helper]: an attribute that was
    never assigned raises [AttributeError]. *)
Definition self_grads : prog wrapper (list grad) :=
  self <- get_self ;;
  match grads self with
  | Some g => Ret g
  | None => Raise (AttributeError "grads")
  end.

Definition self__profile_helper : prog wrapper profile_helper :=
  self <- get_self ;;
  match _profile_helper self with
  | Some p => Ret p
  | None => Raise (AttributeError "_profile_helper")
  end.

(** [tf.control_dependencies(control_inputs)] in graph mode turns every
    input into a graph element and raises [TypeError] on [None]. *)
Fixpoint as_graph_elements (control_inputs : list grad) : option (list tensor) :=
  match control_inputs with
  | [] => Some []
  | Some t :: l => option_map (cons t) (as_graph_elements l)
  | None :: _ => None
  end.

Definition tf_control_dependencies {St A} (control_inputs : list grad)
    (body : prog St A) : prog St A :=
  match as_graph_elements control_inputs with
  | Some ts => with_ (control_dependencies ts) body
  | None => Raise (TypeError "Can not convert a NoneType into a Tensor or Operation.")
  end.

(** [tf.identity(grad)]: [None] is no tensor, [ValueError]. *)
Definition tf_identity_ {St} (g : grad) : prog St grad :=
  match g with
  | Some t => r <- ext (tf_identity t) ;; Ret (Some r)
  | None => Raise (ValueError "None values not supported.")
  end.

(** [[tf.identity(grad) for grad in allreduced_grads]] *)
Fixpoint identity_all {St} (allreduced_grads : list grad) : prog St (list grad) :=
  match allreduced_grads with
  | [] => Ret []
  | grad :: l =>
      r <- tf_identity_ grad ;;
      rs <- identity_all l ;;
      Ret (r :: rs)
  end.

Definition ordering_error : string :=
  "`apply_gradients()` was called without a call to `get_gradients()`or `_aggregate_gradients` . If you're using TensorFlow 2.0 or 2.1, please specify `experimental_run_tf_function=False` in `compile()`.".

Section DistributedOptimizer.
(** The parameters of [create_distributed_optimizer] the class closes
    over ([keras] only supplies the base class). *)
Variable name : option string.
Variables device_dense device_sparse compression : pyobj.
Variable sparse_as_dense : bool.
Variables aggregation_frequency grad_updated_sizes_dict : pyobj.
Variables profile_frequency profile_filename : pyobj.
Variable average_aggregated_gradients : pyobj.

(** [name or "Distributed%s" % self.__class__.__base__.__name__] *)
Definition default_name (cls : pyclass) : string :=
  match name with
  | Some n => if decide (n = "") then "Distributed" +:+ __name__ (__base__ cls) else n
  | None => "Distributed" +:+ __name__ (__base__ cls)
  end.

(** [_name] is the value line 56 assigns to [self._name]; line 68 reads it
    back before anything else can assign the attribute. *)
Definition __init__ {St} (cls : pyclass) (kwargs : kwargs_t) : prog St wrapper :=
  let _name := default_name cls in
  executing_eagerly <- ext hvd__executing_eagerly ;;
  let allreduced_grads_fn :=
    _make_allreduce_grads_fn (_name +:+ "_Allreduce") sparse_as_dense
      device_dense device_sparse compression in
  helpers <-
    (if negb executing_eagerly then
       h <- ext (LocalGradientAggregationHelper aggregation_frequency
                   allreduced_grads_fn sparse_as_dense
                   grad_updated_sizes_dict average_aggregated_gradients) ;;
       p <- ext (TFProfileHelper profile_frequency profile_filename) ;;
       Ret (h, Some p)
     else
       h <- ext (LocalGradientAggregationHelperEager aggregation_frequency
                   allreduced_grads_fn sparse_as_dense
                   average_aggregated_gradients) ;;
       Ret (h, None)) ;;
  base <- ext (super___init__ (__base__ cls) kwargs) ;;
  Ret (Wrapper cls device_dense device_sparse compression
         sparse_as_dense false executing_eagerly (fst helpers)
         (snd helpers) None base).

Definition _allreduce : prog wrapper (list grad) :=
  modify_self (set__aggregated_gradients true) ;;;
  self <- get_self ;;
  if _executing_eagerly self then
    size <- ext hvd_size ;;
    if (size >? 1)%Z then
      g <- self_grads ;;
      ext (agg_compute_gradients (_agg_helper self) g)
    else
      self_grads
  else
    size <- ext hvd_size ;;
    if (size >? 1)%Z then
      g <- self_grads ;;
      sess <- ext tf_get_session ;;
      ext (agg_init_aggregation_vars (_agg_helper self) g sess) ;;;
      p <- self__profile_helper ;;
      start <- ext (profile_start p) ;;
      allreduced_grads <-
        tf_control_dependencies [Some start]
          (g <- self_grads ;;
           ext (agg_compute_gradients (_agg_helper self) g)) ;;
      comm_end <-
        tf_control_dependencies allreduced_grads
          (p <- self__profile_helper ;; ext (profile_end p)) ;;
      tf_control_dependencies [Some comm_end]
        (identity_all allreduced_grads)
    else
      self_grads.

Definition get_gradients (loss params : pyobj) : prog wrapper (list grad) :=
  self <- get_self ;;
  g <- ext (super_get_gradients (__base__ (__class__ self)) loss params) ;;
  modify_self (set_grads g) ;;;
  _allreduce.

Definition _aggregate_gradients (grads_and_vars : list (grad * pyobj))
    : prog wrapper (list grad) :=
  modify_self (set_grads (map fst grads_and_vars)) ;;;
  _allreduce.

Definition apply_gradients (args : list pyobj) (kwargs : kwargs_t)
    : prog wrapper pyobj :=
  self <- get_self ;;
  if negb (_aggregated_gradients self) then
    Raise (Exception ordering_error)
  else
    ext (agg_apply_gradients (_agg_helper self)
           (SuperApplyGradients (__base__ (__class__ self)) args kwargs)
           args kwargs).

(** Calling the closure handed to the helper. *)
Definition call_update_fn {St} (f : update_fn) : prog St pyobj :=
  ext (super_apply_gradients (upd_base f) (upd_args f) (upd_kwargs f)).

(** [Optimizer.from_config] of Keras, which the generated class inherits:
    it calls [cls] with the entries of [config] as keyword arguments,
    that is, [__init__] on a new instance of [cls]. *)
Definition from_config {St} (cls : pyclass) (config : kwargs_t) : prog St wrapper :=
  __init__ cls config.

Definition create_distributed_optimizer {St} (optimizer : optimizer)
    : prog St wrapper :=
  let cls := TypeNew (__name__ (opt_class optimizer)) (opt_class optimizer) in
  config <- ext (optimizer_get_config optimizer) ;;
  from_config cls config.

End DistributedOptimizer.

(** ** Reading the log *)

(** The tensors submitted to [hvd.allreduce], in order. *)
Definition allreduce_calls (l : list entry) : list tensor :=
  omap (fun e => match e_call e with
                 | hvd_allreduce t _ _ _ => Some t
                 | _ => None
                 end) l.

(** The answers of the [hvd.allreduce] calls that returned, in order. *)
Definition allreduce_answers (l : list entry) : list tensor :=
  omap (fun e => match e with
                 | Entry _ (hvd_allreduce _ _ _ _) (inr r) => Some r
                 | _ => None
                 end) l.

(** The tensors handed to [tf.convert_to_tensor], in order. *)
Definition convert_calls (l : list entry) : list tensor :=
  omap (fun e => match e_call e with
                 | tf_convert_to_tensor t => Some t
                 | _ => None
                 end) l.

(** Calls into the aggregation helper and the profile helper. *)
Definition is_helper_call (c : call) : bool :=
  match c with
  | LocalGradientAggregationHelper _ _ _ _ _
  | LocalGradientAggregationHelperEager _ _ _ _
  | agg_init_aggregation_vars _ _ _
  | agg_compute_gradients _ _
  | agg_apply_gradients _ _ _ _ => true
  | _ => false
  end.

Definition is_profile_call (c : call) : bool :=
  match c with
  | TFProfileHelper _ _ | profile_start _ | profile_end _ => true
  | _ => false
  end.

Definition is_collective_call (c : call) : bool :=
  match c with hvd_allreduce _ _ _ _ => true | _ => false end.

(** The calls of a log, without contexts and answers. *)
Definition calls (l : list entry) : list call := map e_call l.

(** The environment never answers a call of the class [P] with an
    exception. *)
Definition never_raises (E : env) (P : call -> bool) : Prop :=
  forall c s, P c = true -> exists v, fst (handle E c s) = inr v.

(** The calls [allreduce_grads] makes. *)
Definition is_reduction_call (c : call) : bool :=
  match c with
  | hvd_allreduce _ _ _ _ | tf_convert_to_tensor _ => true
  | _ => false
  end.

(** What the reduction function is to do, as a relation between the
    gradients, the log and the returned list: nothing for [None]; one
    collective call for a gradient submitted as it is; a conversion and
    then one collective call on its answer for a sparse gradient when
    [sparse_as_dense] is set. *)
Inductive reduces (fn : allreduce_grads_fn) (ctx : list scope)
    : list grad -> list entry -> list grad -> Prop :=
  | reduces_nil : reduces fn ctx [] [] []
  | reduces_None gs l rs :
      reduces fn ctx gs l rs ->
      reduces fn ctx (None :: gs) l (None :: rs)
  | reduces_as_is g r gs l rs :
      fn_sparse_as_dense fn && is_IndexedSlices g = false ->
      reduces fn ctx gs l rs ->
      reduces fn ctx (Some g :: gs)
        (Entry ctx (hvd_allreduce g (fn_device_dense fn) (fn_device_sparse fn)
                      (fn_compression fn)) (inr r) :: l)
        (Some r :: rs)
  | reduces_densified g n r gs l rs :
      fn_sparse_as_dense fn = true ->
      is_IndexedSlices g = true ->
      reduces fn ctx gs l rs ->
      reduces fn ctx (Some g :: gs)
        (Entry ctx (tf_convert_to_tensor g) (inr n)
         :: Entry ctx (hvd_allreduce (Tensor n) (fn_device_dense fn)
                         (fn_device_sparse fn) (fn_compression fn)) (inr r)
         :: l)
        (Some r :: rs).

(** ** The interpreter on [bind] *)

Section RunLemmas.
Context (E : env) {St : Type}.

Definition then_ {A B} (res : result St (env_state E) A)
    (f : A -> list scope -> St -> env_state E -> result St (env_state E) B)
    (ctx : list scope) : result St (env_state E) B :=
  match outcome res with
  | inl e => Result (inl e) (self_after res) (env_after res) (emitted res)
  | inr a =>
      let res' := f a ctx (self_after res) (env_after res) in
      Result (outcome res') (self_after res') (env_after res')
             (emitted res ++ emitted res')
  end.

Lemma result_eta {A} (r : result St (env_state E) A) :
  Result (outcome r) (self_after r) (env_after r) (emitted r) = r.
Proof. by destruct r. Qed.

Lemma run_bind {A B} (p : prog St A) (f : A -> prog St B) ctx self s :
  run E (bind p f) ctx self s
  = then_ (run E p ctx self s) (fun a => run E (f a)) ctx.
Proof.
  revert B f ctx self s.
  induction p as [A a|A e|A k IH|A st k IH|A c k IH|A C sc body IHb k IH];
    intros B f ctx self s; cbn [bind run].
  - unfold then_; cbn. by rewrite result_eta.
  - reflexivity.
  - apply IH.
  - apply IH.
  - destruct (handle E c s) as [[e|v] s1]; [reflexivity|].
    rewrite IH. unfold then_; cbn.
    destruct (outcome (run E (k v) ctx self s1)); reflexivity.
  - destruct (run E body (sc :: ctx) self s) as [[e|b] sa ea em];
      unfold then_; cbn; [reflexivity|].
    rewrite IH. unfold then_; cbn.
    destruct (outcome (run E (k b) ctx sa ea)); cbn; [reflexivity|].
    by rewrite app_assoc.
Qed.
End RunLemmas.

Arguments run : simpl never.
Arguments bind : simpl never.

Section RunSteps.
Context (E : env) {St : Type}.

Lemma run_ret {A} (a : A) ctx (self : St) s :
  run E (Ret a) ctx self s = Result (inr a) self s [].
Proof. reflexivity. Qed.

Lemma run_raise {A} e ctx (self : St) s :
  run E (Raise e : prog St A) ctx self s = Result (inl e) self s [].
Proof. reflexivity. Qed.

Lemma run_get_self ctx (self : St) s :
  run E get_self ctx self s = Result (inr self) self s [].
Proof. reflexivity. Qed.

Lemma run_modify_self f ctx (self : St) s :
  run E (modify_self f) ctx self s = Result (inr tt) (f self) s [].
Proof. reflexivity. Qed.

Lemma run_ext (c : call) ctx (self : St) s :
  run E (ext c) ctx self s
  = Result (fst (handle E c s)) self (snd (handle E c s))
      [Entry ctx c (fst (handle E c s))].
Proof.
  unfold ext, run. destruct (handle E c s) as [[e|v] s1]; reflexivity.
Qed.

Lemma run_with_ {A} sc (body : prog St A) ctx (self : St) s :
  run E (with_ sc body) ctx self s = run E body (sc :: ctx) self s.
Proof.
  unfold with_, run; fold (@run E St).
  destruct (run E body (sc :: ctx) self s) as [[e|a] sa ea em]; cbn;
    [reflexivity|]. by rewrite app_nil_r.
Qed.
End RunSteps.

(** Run the interpreter symbolically, one construct at a time. *)
Ltac run_step :=
  repeat first
    [ rewrite run_bind | rewrite run_ret | rewrite run_raise
    | rewrite run_get_self | rewrite run_modify_self | rewrite run_ext
    | match goal with
      | |- context [@run ?E ?St ?A (@ext ?St' ?c) ?ctx ?self ?s] =>
          rewrite (run_ext E c ctx self s
                   : @run E St A (@ext St' c) ctx self s = _)
      end
    | rewrite run_with_
    | progress cbn [then_ outcome self_after env_after emitted fst snd app] ].

Section ReductionLemmas.
Context (E : env) {St : Type}.
Variable fn : allreduce_grads_fn.

Lemma allreduce_grads_loop_self gs acc ctx (self : St) s :
  self_after (run E (allreduce_grads_loop fn gs acc) ctx self s) = self.
Proof.
  revert acc s. induction gs as [|[g|] gs IH]; intros acc s; cbn [allreduce_grads_loop].
  - reflexivity.
  - destruct (fn_sparse_as_dense fn && is_IndexedSlices g); run_step.
    + destruct (handle E (tf_convert_to_tensor g) s) as [[e|n] s1]; run_step;
        [reflexivity|].
      destruct (handle E (hvd_allreduce _ _ _ _) _) as [[e|r] s2]; run_step;
        [reflexivity|]. apply IH.
    + destruct (handle E (hvd_allreduce _ _ _ _) _) as [[e|r] s2]; run_step;
        [reflexivity|]. apply IH.
  - apply IH.
Qed.

Lemma allreduce_grads_loop_reduces gs acc ctx (self : St) s rs :
  outcome (run E (allreduce_grads_loop fn gs acc) ctx self s) = inr rs ->
  exists rs', rs = acc ++ rs'
    /\ reduces fn ctx gs
         (emitted (run E (allreduce_grads_loop fn gs acc) ctx self s)) rs'.
Proof.
  revert acc s. induction gs as [|[g|] gs IH]; intros acc s; cbn [allreduce_grads_loop].
  - run_step. intros [= <-]. exists []. rewrite app_nil_r. split; [done|constructor].
  - destruct (fn_sparse_as_dense fn && is_IndexedSlices g) eqn:Hc; run_step.
    + apply andb_prop in Hc as [Hsad Hsp].
      destruct (handle E (tf_convert_to_tensor g) s) as [[e|n] s1]; run_step;
        [done|].
      destruct (handle E (hvd_allreduce _ _ _ _) _) as [[e|r] s2]; run_step;
        [done|].
      intros H. destruct (IH _ _ H) as (rs' & -> & Hred).
      exists (Some r :: rs'). rewrite <- app_assoc. split; [done|].
      by apply reduces_densified.
    + destruct (handle E (hvd_allreduce _ _ _ _) _) as [[e|r] s2]; run_step;
        [done|].
      intros H. destruct (IH _ _ H) as (rs' & -> & Hred).
      exists (Some r :: rs'). rewrite <- app_assoc. split; [done|].
      by apply reduces_as_is.
  - intros H. destruct (IH _ _ H) as (rs' & -> & Hred).
    exists (None :: rs'). rewrite <- app_assoc. split; [done|].
    by constructor.
Qed.

Lemma allreduce_grads_loop_returns gs acc ctx (self : St) s :
  never_raises E is_reduction_call ->
  exists rs, outcome (run E (allreduce_grads_loop fn gs acc) ctx self s) = inr rs.
Proof.
  intros HE. revert acc s.
  induction gs as [|[g|] gs IH]; intros acc s; cbn [allreduce_grads_loop].
  - by eexists.
  - destruct (fn_sparse_as_dense fn && is_IndexedSlices g); run_step.
    + destruct (HE (tf_convert_to_tensor g) s eq_refl) as [n Hn].
      destruct (handle E (tf_convert_to_tensor g) s) as [r1 s1].
      cbn in Hn; subst r1; run_step.
      edestruct (HE (hvd_allreduce (Tensor n) (fn_device_dense fn)
                       (fn_device_sparse fn) (fn_compression fn)) s1)
        as [r Hr]; [done|].
      destruct (handle E (hvd_allreduce _ _ _ _) s1) as [r2 s2].
      cbn in Hr; subst r2; run_step. apply IH.
    + edestruct (HE (hvd_allreduce g (fn_device_dense fn)
                       (fn_device_sparse fn) (fn_compression fn)) s)
        as [r Hr]; [done|].
      destruct (handle E (hvd_allreduce _ _ _ _) s) as [r2 s2].
      cbn in Hr; subst r2; run_step. apply IH.
  - apply IH.
Qed.
End ReductionLemmas.

(** ** Consequences of [reduces] *)

Section ReducesFacts.
Variable fn : allreduce_grads_fn.
Variable ctx : list scope.

Lemma reduces_length gs l rs : reduces fn ctx gs l rs -> length rs = length gs.
Proof. induction 1; cbn; congruence. Qed.

Lemma reduces_None_positions gs l rs :
  reduces fn ctx gs l rs ->
  forall i : nat, rs !! i = Some None <-> gs !! i = Some None.
Proof.
  induction 1 as [|gs l rs _ IH|g r gs l rs _ _ IH|g n r gs l rs _ _ _ IH];
    intros [|i]; cbn; try apply IH; try done; split; intros [=].
Qed.

Lemma reduces_answers gs l rs :
  reduces fn ctx gs l rs -> allreduce_answers l = omap id rs.
Proof.
  unfold allreduce_answers.
  induction 1; cbn; try done; by f_equal.
Qed.

Lemma reduces_calls_count gs l rs :
  reduces fn ctx gs l rs ->
  length (allreduce_calls l) = length (List.filter is_not_None gs).
Proof.
  unfold allreduce_calls.
  induction 1; cbn; try done; by f_equal.
Qed.

Lemma reduces_only_reduction_calls gs l rs :
  reduces fn ctx gs l rs ->
  Forall (fun e => is_reduction_call (e_call e) = true /\ e_ctx e = ctx) l.
Proof. induction 1; repeat constructor; done. Qed.

Lemma reduces_dense gs l rs :
  reduces fn ctx gs l rs ->
  fn_sparse_as_dense fn = true ->
  Forall (fun t => is_IndexedSlices t = false) (allreduce_calls l)
  /\ convert_calls l = List.filter is_IndexedSlices (omap id gs).
Proof.
  unfold allreduce_calls, convert_calls. intros H Hsad.
  induction H as [|gs l rs _ IH|g r gs l rs Hg _ IH|g n r gs l rs _ Hg _ IH]; cbn.
  - split; [constructor|done].
  - done.
  - rewrite Hsad in Hg; cbn in Hg. destruct IH as [IH1 IH2].
    rewrite Hg. split; [by constructor|done].
  - destruct IH as [IH1 IH2]. rewrite Hg.
    split; [by constructor|by f_equal].
Qed.

Lemma reduces_sparse gs l rs :
  reduces fn ctx gs l rs ->
  fn_sparse_as_dense fn = false ->
  allreduce_calls l = omap id gs /\ convert_calls l = [].
Proof.
  unfold allreduce_calls, convert_calls. intros H Hsad.
  induction H as [|gs l rs _ IH|g r gs l rs Hg _ IH|g n r gs l rs Hg' Hg _ IH]; cbn.
  - done.
  - done.
  - destruct IH as [IH1 IH2]. split; [by f_equal|done].
  - congruence.
Qed.
End ReducesFacts.

(** ** A sample environment

    Used to run the programs on concrete inputs.  Its state is the next
    unused tensor number.  The collective has [size] participants; every
    operation that makes a tensor answers with a new one; the aggregation
    helper answers [compute_gradients] with a new tensor for each gradient
    and [None] for each [None], and [apply_gradients] with the object the
    update returns. *)

Fixpoint sample_compute_gradients (gs : list grad) (n : N) : list grad * N :=
  match gs with
  | [] => ([], n)
  | Some _ :: l =>
      let '(r, n') := sample_compute_gradients l (n + 1)%N in
      (Some (Tensor n) :: r, n')
  | None :: l =>
      let '(r, n') := sample_compute_gradients l n in (None :: r, n')
  end.

Definition sample_handle (size : Z) (eager : bool) (c : call) (n : N)
    : (exn + resp c) * N :=
  match c return (exn + resp c) * N with
  | hvd_size => (inr size, n)
  | hvd__executing_eagerly => (inr eager, n)
  | hvd_allreduce (IndexedSlices _) _ _ _ => (inr (IndexedSlices n), (n + 1)%N)
  | hvd_allreduce _ _ _ _ => (inr (Tensor n), (n + 1)%N)
  | tf_convert_to_tensor _ => (inr n, (n + 1)%N)
  | tf_identity (IndexedSlices _) => (inr (IndexedSlices n), (n + 1)%N)
  | tf_identity _ => (inr (Tensor n), (n + 1)%N)
  | tf_get_session => (inr (PyObj 0), n)
  | LocalGradientAggregationHelper _ _ _ _ _ => (inr (AggHelper 1), n)
  | LocalGradientAggregationHelperEager _ _ _ _ => (inr (AggHelper 2), n)
  | agg_init_aggregation_vars _ _ _ => (inr tt, n)
  | agg_compute_gradients _ gs =>
      let '(r, n') := sample_compute_gradients gs n in (inr r, n')
  | agg_apply_gradients _ _ _ _ => (inr (PyObj 7), n)
  | TFProfileHelper _ _ => (inr (ProfileHelper 3), n)
  | profile_start _ => (inr (Operation n), (n + 1)%N)
  | profile_end _ => (inr (Operation n), (n + 1)%N)
  | super___init__ _ _ => (inr (PyObj 5), n)
  | super_get_gradients _ _ _ =>
      (inr [Some (Tensor 100); Some (IndexedSlices 101)], n)
  | super_apply_gradients _ _ _ => (inr (PyObj 7), n)
  | optimizer_get_config _ => (inr [("learning_rate", PyObj 9)], n)
  end.

Definition sample_env (size : Z) (eager : bool) : env :=
  Env (sample_handle size eager).

Lemma sample_env_never_raises size eager P : never_raises (sample_env size eager) P.
Proof.
  intros c s _. cbn.
  destruct c as [| |[]| |[]| | | | |h gs| | | | | | | | ]; cbn; try by eexists.
  destruct (sample_compute_gradients gs s). by eexists.
Qed.

(** ** The reduction function *)

Lemma allreduce_grads_reduces (E : env) (St : Type) fn gs ctx (self : St) s rs :
  outcome (run E (allreduce_grads fn gs) ctx self s) = inr rs ->
  reduces fn (name_scope (fn_name_scope fn) :: ctx) gs
    (emitted (run E (allreduce_grads fn gs) ctx self s)) rs.
Proof.
  unfold allreduce_grads. rewrite run_with_. intros H.
  by destruct (allreduce_grads_loop_reduces _ _ _ _ _ _ _ H) as (rs' & -> & Hred).
Qed.

(** C2.  Whatever the gradients (dense, sparse or [None]) and whatever the
    environment, so whatever the number of participants, which the function
    never asks for: when the collective and the conversion do not raise,
    [allreduce_grads] returns a list of the length of its input, with
    [None] at exactly the positions where the input has [None]; it issues
    one [hvd.allreduce] per entry that is not [None], in the order of the
    input, none for [None], and the entries it returns are the answers of
    these calls, in order. *)
Theorem allreduce_grads_shape (E : env) (St : Type) (fn : allreduce_grads_fn)
    (gs : list grad) (ctx : list scope) (self : St) (s : env_state E) :
  never_raises E is_reduction_call ->
  exists rs : list grad,
    outcome (run E (allreduce_grads fn gs) ctx self s) = inr rs
    /\ length rs = length gs
    /\ (forall i : nat, rs !! i = Some None <-> gs !! i = Some None)
    /\ length (allreduce_calls (emitted (run E (allreduce_grads fn gs) ctx self s)))
       = length (List.filter is_not_None gs)
    /\ allreduce_answers (emitted (run E (allreduce_grads fn gs) ctx self s))
       = omap id rs
    /\ reduces fn (name_scope (fn_name_scope fn) :: ctx) gs
         (emitted (run E (allreduce_grads fn gs) ctx self s)) rs
    /\ hvd_size ∉ calls (emitted (run E (allreduce_grads fn gs) ctx self s)).
Proof.
  intros HE.
  assert (exists rs, outcome (run E (allreduce_grads fn gs) ctx self s) = inr rs)
    as [rs Hrs].
  { unfold allreduce_grads. rewrite run_with_.
    by apply allreduce_grads_loop_returns. }
  pose proof (allreduce_grads_reduces _ _ _ _ _ _ Hrs) as Hred.
  exists rs. split_and!.
  - done.
  - eapply reduces_length, Hred.
  - eapply reduces_None_positions, Hred.
  - eapply reduces_calls_count, Hred.
  - eapply reduces_answers, Hred.
  - done.
  - apply reduces_only_reduction_calls in Hred.
    unfold calls. intros (e & He & Hin)%list_elem_of_fmap.
    rewrite Forall_forall in Hred. apply Hred in Hin as [Hc _].
    by rewrite <- He in Hc.
Qed.

Definition sample_fn (sparse_as_dense : bool) : allreduce_grads_fn :=
  _make_allreduce_grads_fn "DistributedAdam_Allreduce" sparse_as_dense
    (PyObj 1) (PyObj 2) (PyObj 3).

Definition sample_grads : list grad :=
  [Some (Tensor 10); None; Some (IndexedSlices 11)].

Example allreduce_grads_sample_dense :
  outcome (run (sample_env 4 false) (allreduce_grads (sample_fn true) sample_grads)
             [] tt 0%N)
  = inr [Some (Tensor 0); None; Some (Tensor 2)].
Proof. reflexivity. Qed.

Example allreduce_grads_sample_sparse :
  outcome (run (sample_env 4 false) (allreduce_grads (sample_fn false) sample_grads)
             [] tt 0%N)
  = inr [Some (Tensor 0); None; Some (IndexedSlices 1)].
Proof. reflexivity. Qed.

Lemma allreduce_grads_shape_witness :
  exists rs : list grad,
    outcome (run (sample_env 4 false)
               (allreduce_grads (sample_fn true) sample_grads) [] tt 0%N) = inr rs
    /\ length rs = length sample_grads
    /\ (forall i : nat, rs !! i = Some None <-> sample_grads !! i = Some None)
    /\ length (allreduce_calls (emitted (run (sample_env 4 false)
                 (allreduce_grads (sample_fn true) sample_grads) [] tt 0%N)))
       = length (List.filter is_not_None sample_grads)
    /\ allreduce_answers (emitted (run (sample_env 4 false)
                 (allreduce_grads (sample_fn true) sample_grads) [] tt 0%N))
       = omap id rs
    /\ reduces (sample_fn true) [name_scope (fn_name_scope (sample_fn true))]
         sample_grads
         (emitted (run (sample_env 4 false)
                 (allreduce_grads (sample_fn true) sample_grads) [] tt 0%N)) rs
    /\ hvd_size ∉ calls (emitted (run (sample_env 4 false)
                 (allreduce_grads (sample_fn true) sample_grads) [] tt 0%N)).
Proof.
  apply (@allreduce_grads_shape (sample_env 4 false) unit (sample_fn true)
           sample_grads [] tt 0%N).
  apply sample_env_never_raises.
Defined.

Section Submissions.
Context (E : env) {St : Type}.
Variable fn : allreduce_grads_fn.

(** What reaches the collective on every run, also one an exception cuts
    short. *)
Lemma allreduce_grads_loop_submissions gs acc ctx (self : St) s :
  if fn_sparse_as_dense fn
  then Forall (fun t => is_IndexedSlices t = false)
         (allreduce_calls (emitted (run E (allreduce_grads_loop fn gs acc) ctx self s)))
  else convert_calls (emitted (run E (allreduce_grads_loop fn gs acc) ctx self s)) = []
       /\ allreduce_calls (emitted (run E (allreduce_grads_loop fn gs acc) ctx self s))
          `prefix_of` omap id gs.
Proof.
  revert acc s. unfold allreduce_calls, convert_calls.
  induction gs as [|[g|] gs IH]; intros acc s; cbn [allreduce_grads_loop].
  - run_step. destruct (fn_sparse_as_dense fn); cbn; [constructor|done].
  - destruct (fn_sparse_as_dense fn) eqn:Hsad; cbn [andb].
    + destruct (is_IndexedSlices g) eqn:Hg; run_step.
      * destruct (handle E (tf_convert_to_tensor g) s) as [[e|n] s1]; run_step;
          [cbn; constructor|].
        destruct (handle E (hvd_allreduce _ _ _ _) _) as [[e|r] s2]; run_step;
          cbn; [by repeat constructor|].
        constructor; [done|]. apply IH.
      * destruct (handle E (hvd_allreduce _ _ _ _) _) as [[e|r] s2]; run_step;
          cbn; [by repeat constructor|].
        constructor; [done|]. apply IH.
    + run_step.
      destruct (handle E (hvd_allreduce _ _ _ _) _) as [[e|r] s2]; run_step; cbn.
      * split; [done|]. apply prefix_cons, prefix_nil.
      * destruct (IH (acc ++ [Some r]) s2) as [IH1 IH2].
        split; [done|]. by apply prefix_cons.
  - specialize (IH (acc ++ [None]) s).
    destruct (fn_sparse_as_dense fn); cbn; done.
Qed.
End Submissions.

(** C5.  With [sparse_as_dense] set, no sparse tensor ever reaches
    [hvd.allreduce]: each sparse gradient goes through
    [tf.convert_to_tensor] first and the dense answer is what is submitted.
    With [sparse_as_dense] unset, nothing is converted and every gradient,
    sparse ones included, is submitted as it came.  The first part holds on
    every run, the second describes the runs that return. *)
Theorem sparse_as_dense_handling (E : env) (St : Type) (fn : allreduce_grads_fn)
    (gs : list grad) (ctx : list scope) (self : St) (s : env_state E) :
  (if fn_sparse_as_dense fn
   then Forall (fun t => is_IndexedSlices t = false)
          (allreduce_calls (emitted (run E (allreduce_grads fn gs) ctx self s)))
   else convert_calls (emitted (run E (allreduce_grads fn gs) ctx self s)) = []
        /\ allreduce_calls (emitted (run E (allreduce_grads fn gs) ctx self s))
           `prefix_of` omap id gs)
  /\ forall rs : list grad,
       outcome (run E (allreduce_grads fn gs) ctx self s) = inr rs ->
       reduces fn (name_scope (fn_name_scope fn) :: ctx) gs
         (emitted (run E (allreduce_grads fn gs) ctx self s)) rs
       /\ (fn_sparse_as_dense fn = true ->
           convert_calls (emitted (run E (allreduce_grads fn gs) ctx self s))
           = List.filter is_IndexedSlices (omap id gs))
       /\ (fn_sparse_as_dense fn = false ->
           allreduce_calls (emitted (run E (allreduce_grads fn gs) ctx self s))
           = omap id gs).
Proof.
  split.
  - unfold allreduce_grads. rewrite run_with_.
    apply allreduce_grads_loop_submissions.
  - intros rs Hrs.
    pose proof (allreduce_grads_reduces _ _ _ _ _ _ Hrs) as Hred.
    split_and!; [done| |].
    + intros Hsad. by destruct (reduces_dense Hred Hsad).
    + intros Hsad. by destruct (reduces_sparse Hred Hsad).
Qed.

Lemma sparse_as_dense_handling_witness :
  Forall (fun t => is_IndexedSlices t = false)
    (allreduce_calls (emitted (run (sample_env 4 false)
       (allreduce_grads (sample_fn true) sample_grads) [] tt 0%N)))
  /\ convert_calls (emitted (run (sample_env 4 false)
       (allreduce_grads (sample_fn true) sample_grads) [] tt 0%N))
     = [IndexedSlices 11]
  /\ allreduce_calls (emitted (run (sample_env 4 false)
       (allreduce_grads (sample_fn false) sample_grads) [] tt 0%N))
     = [Tensor 10; IndexedSlices 11].
Proof.
  split_and!.
  - exact (proj1 (@sparse_as_dense_handling (sample_env 4 false) unit
                    (sample_fn true) sample_grads [] tt 0%N)).
  - exact (proj1 (proj2 (proj2 (@sparse_as_dense_handling (sample_env 4 false) unit
                    (sample_fn true) sample_grads [] tt 0%N)
                    [Some (Tensor 0); None; Some (Tensor 2)] eq_refl)) eq_refl).
  - exact (proj2 (proj2 (proj2 (@sparse_as_dense_handling (sample_env 4 false) unit
                    (sample_fn false) sample_grads [] tt 0%N)
                    [Some (Tensor 0); None; Some (IndexedSlices 1)] eq_refl)) eq_refl).
Defined.

(** ** _allreduce *)

(** Programs that never assign to [self]. *)
Inductive readonly {St : Type} : forall {A : Type}, prog St A -> Prop :=
  | readonly_Ret {A} (a : A) : readonly (Ret a)
  | readonly_Raise {A} e : readonly (Raise e : prog St A)
  | readonly_GetSelf {A} (k : St -> prog St A) :
      (forall s, readonly (k s)) -> readonly (GetSelf k)
  | readonly_Ext {A} c (k : resp c -> prog St A) :
      (forall r, readonly (k r)) -> readonly (Ext c k)
  | readonly_With {A B} sc (body : prog St B) (k : B -> prog St A) :
      readonly body -> (forall b, readonly (k b)) -> readonly (With sc body k).

Lemma readonly_run (E : env) {St A} (p : prog St A) :
  readonly p ->
  forall ctx self s, self_after (run E p ctx self s) = self.
Proof.
  induction 1 as [A a|A e|A k _ IH|A c k _ IH|A B sc body k _ IHb _ IH];
    intros ctx self s; unfold run; fold (@run E St).
  - reflexivity.
  - reflexivity.
  - apply IH.
  - destruct (handle E c s) as [[e|v] s1]; cbn; [reflexivity|apply IH].
  - specialize (IHb (sc :: ctx) self s).
    destruct (run E body (sc :: ctx) self s) as [[e|b] sa ea em]; cbn in *;
      [done|]. rewrite IH. done.
Qed.

Lemma readonly_bind {St A B} (p : prog St A) (f : A -> prog St B) :
  readonly p -> (forall a, readonly (f a)) -> readonly (bind p f).
Proof.
  intros Hp. revert B f.
  induction Hp as [A a|A e|A k _ IH|A c k _ IH|A C sc body k Hb _ _ IH];
    intros B f Hf; unfold bind; fold (@bind St).
  - apply Hf.
  - constructor.
  - constructor. intros s. by apply IH.
  - constructor. intros r. by apply IH.
  - constructor; [done|]. intros b. by apply IH.
Qed.

Lemma readonly_ext {St} c : readonly (ext c : prog St _).
Proof. constructor. intros r. constructor. Qed.

Lemma readonly_with_ {St A} sc (p : prog St A) : readonly p -> readonly (with_ sc p).
Proof. intros Hp. constructor; [done|]. intros b. constructor. Qed.

Lemma readonly_self_grads : readonly self_grads.
Proof.
  unfold self_grads. apply readonly_bind; [repeat constructor|].
  intros self. destruct (grads self); constructor.
Qed.

Lemma readonly_self__profile_helper : readonly self__profile_helper.
Proof.
  unfold self__profile_helper. apply readonly_bind; [repeat constructor|].
  intros self. destruct (_profile_helper self); constructor.
Qed.

Lemma readonly_tf_control_dependencies {St A} l (p : prog St A) :
  readonly p -> readonly (tf_control_dependencies l p).
Proof.
  intros Hp. unfold tf_control_dependencies.
  destruct (as_graph_elements l); [by apply readonly_with_|constructor].
Qed.

Lemma readonly_identity_all {St} l : readonly (identity_all l : prog St _).
Proof.
  induction l as [|[t|] l IH]; cbn [identity_all]; [constructor| |].
  - apply readonly_bind.
    + unfold tf_identity_. apply readonly_bind; [apply readonly_ext|].
      intros r; constructor.
    + intros r. apply readonly_bind; [done|]. intros rs; constructor.
  - apply readonly_bind; [constructor|].
    intros r. apply readonly_bind; [done|]. intros rs; constructor.
Qed.

(** The part of [_allreduce] after the assignment to the flag. *)
Definition _allreduce_body (self : wrapper) : prog wrapper (list grad) :=
  if _executing_eagerly self then
    size <- ext hvd_size ;;
    if (size >? 1)%Z then
      g <- self_grads ;;
      ext (agg_compute_gradients (_agg_helper self) g)
    else
      self_grads
  else
    size <- ext hvd_size ;;
    if (size >? 1)%Z then
      g <- self_grads ;;
      sess <- ext tf_get_session ;;
      ext (agg_init_aggregation_vars (_agg_helper self) g sess) ;;;
      p <- self__profile_helper ;;
      start <- ext (profile_start p) ;;
      allreduced_grads <-
        tf_control_dependencies [Some start]
          (g <- self_grads ;;
           ext (agg_compute_gradients (_agg_helper self) g)) ;;
      comm_end <-
        tf_control_dependencies allreduced_grads
          (p <- self__profile_helper ;; ext (profile_end p)) ;;
      tf_control_dependencies [Some comm_end]
        (identity_all allreduced_grads)
    else
      self_grads.

Lemma _allreduce_unfold :
  _allreduce
  = (modify_self (set__aggregated_gradients true) ;;;
     self <- get_self ;; _allreduce_body self).
Proof. reflexivity. Qed.

Ltac readonly_tac :=
  repeat first
    [ apply readonly_self_grads | apply readonly_self__profile_helper
    | apply readonly_ext | apply readonly_identity_all
    | apply readonly_tf_control_dependencies
    | apply readonly_bind; [|intros ?]
    | match goal with |- readonly (if ?b then _ else _) => destruct b end
    | constructor ].

Lemma readonly__allreduce_body self : readonly (_allreduce_body self).
Proof. unfold _allreduce_body. readonly_tac. Qed.

Lemma run__allreduce (E : env) ctx w s :
  run E _allreduce ctx w s
  = run E (_allreduce_body (set__aggregated_gradients true w)) ctx
      (set__aggregated_gradients true w) s.
Proof.
  rewrite _allreduce_unfold. run_step.
  destruct (run E _ ctx _ s) as [[e|a] sa ea em]; reflexivity.
Qed.

Lemma _allreduce_self_after (E : env) ctx w s :
  self_after (run E _allreduce ctx w s) = set__aggregated_gradients true w.
Proof.
  rewrite run__allreduce. apply readonly_run, readonly__allreduce_body.
Qed.

(** Run the interpreter and read the attributes of [self] on the way. *)
Ltac self_step :=
  repeat first
    [ progress run_step
    | progress cbn [__class__ _device_dense _device_sparse _compression
                    _sparse_as_dense _aggregated_gradients _executing_eagerly
                    _agg_helper _profile_helper grads base_state
                    set__aggregated_gradients set_grads negb] ].

(** C3.  When [hvd.size()] answers 1, in eager and in deferred mode
    alike, [_allreduce] returns the list stored in [self.grads] as it is,
    and the only external call of the whole run is the [hvd.size()] query:
    no collective call, no call into the aggregation helper, no call into
    the profile helper.  The stored list stays in place and the ordering
    flag is set. *)
Theorem _allreduce_single_participant (E : env) (w : wrapper) (gs : list grad)
    (ctx : list scope) (s s' : env_state E) :
  grads w = Some gs ->
  handle E hvd_size s = (inr 1%Z, s') ->
  outcome (run E _allreduce ctx w s) = inr gs
  /\ emitted (run E _allreduce ctx w s) = [Entry ctx hvd_size (inr 1%Z)]
  /\ Forall (fun c => is_collective_call c = false
                      /\ is_helper_call c = false
                      /\ is_profile_call c = false)
       (calls (emitted (run E _allreduce ctx w s)))
  /\ self_after (run E _allreduce ctx w s) = set__aggregated_gradients true w
  /\ grads (self_after (run E _allreduce ctx w s)) = Some gs
  /\ env_after (run E _allreduce ctx w s) = s'.
Proof.
  intros Hg Hsize.
  assert (run E _allreduce ctx w s
          = Result (inr gs) (set__aggregated_gradients true w) s'
              [Entry ctx hvd_size (inr 1%Z)]) as ->.
  { rewrite run__allreduce. unfold _allreduce_body, self_grads.
    destruct w as [cl dd ds cp sad ag eager h p g b]; cbn in Hg; subst g.
    destruct eager; cbn [_executing_eagerly set__aggregated_gradients];
      run_step; rewrite Hsize; run_step; reflexivity. }
  cbn. split_and!; try done. by repeat constructor.
Qed.

Definition sample_wrapper (eager : bool) (g : option (list grad)) : wrapper :=
  Wrapper (TypeNew "Adam" (Class "Adam" "keras.optimizers"))
    (PyObj 1) (PyObj 2) (PyObj 3) true false eager
    (AggHelper (if eager then 2 else 1))
    (if eager then None else Some (ProfileHelper 3)) g (PyObj 5).

Lemma _allreduce_single_participant_witness :
  outcome (run (sample_env 1 true) _allreduce []
             (sample_wrapper true (Some sample_grads)) 0%N) = inr sample_grads
  /\ outcome (run (sample_env 1 false) _allreduce []
             (sample_wrapper false (Some sample_grads)) 0%N) = inr sample_grads.
Proof.
  split.
  - exact (proj1 (@_allreduce_single_participant (sample_env 1 true)
             (sample_wrapper true (Some sample_grads)) sample_grads [] 0%N 0%N
             eq_refl eq_refl)).
  - exact (proj1 (@_allreduce_single_participant (sample_env 1 false)
             (sample_wrapper false (Some sample_grads)) sample_grads [] 0%N 0%N
             eq_refl eq_refl)).
Defined.

(** ** The deferred path with several participants *)

(** The answers of the [tf.identity] calls that returned, in order. *)
Definition identity_answers (l : list entry) : list tensor :=
  omap (fun e => match e with
                 | Entry _ (tf_identity _) (inr r) => Some r
                 | _ => None
                 end) l.

Section IdentityAll.
Context (E : env) {St : Type}.

(** [identity_all] never returns [None]: each entry it returns is the
    answer of a [tf.identity] call. *)
Lemma identity_all_returns_tensors l ctx (self : St) s rs :
  outcome (run E (identity_all l) ctx self s) = inr rs ->
  rs = map Some (identity_answers (emitted (run E (identity_all l) ctx self s)))
  /\ length rs = length l
  /\ Forall (fun g => g <> None) l.
Proof.
  revert s rs.
  induction l as [|[t|] l IH]; intros s rs; cbn [identity_all].
  - run_step. intros [= <-]. by split_and!.
  - unfold tf_identity_. run_step.
    destruct (handle E (tf_identity t) s) as [[e|r] s1]; run_step; [done|].
    specialize (IH s1).
    destruct (run E (identity_all l) ctx self s1) as [[e|rs'] sa ea em];
      run_step; [done|].
    intros [= <-]. destruct (IH rs' eq_refl) as (Hrs & Hlen & Hall).
    cbn [emitted] in Hrs. rewrite app_nil_r.
    change (identity_answers (Entry ctx (tf_identity t) (inr r) :: em))
      with (r :: identity_answers em).
    cbn. split_and!; [by f_equal|by f_equal|by constructor].
  - unfold tf_identity_. run_step. done.
Qed.

(** The calls [identity_all] makes on a list of tensors: one
    [tf.identity] per tensor, in order, all in the context of the call. *)
Lemma identity_all_calls ts ctx (self : St) s :
  Forall (fun e => e_ctx e = ctx) (emitted (run E (identity_all (map Some ts)) ctx self s))
  /\ calls (emitted (run E (identity_all (map Some ts)) ctx self s))
     `prefix_of` map tf_identity ts
  /\ (forall rs, outcome (run E (identity_all (map Some ts)) ctx self s) = inr rs ->
      calls (emitted (run E (identity_all (map Some ts)) ctx self s))
      = map tf_identity ts).
Proof.
  revert s. unfold calls.
  induction ts as [|t ts IH]; intros s; cbn [identity_all map].
  - run_step. split_and!; [constructor|done|done].
  - unfold tf_identity_. run_step.
    destruct (handle E (tf_identity t) s) as [[e|r] s1]; run_step.
    + cbn. split_and!; [by repeat constructor| |done].
      apply prefix_cons, prefix_nil.
    + destruct (IH s1) as (IH1 & IH2 & IH3).
      destruct (run E (identity_all (map Some ts)) ctx self s1)
        as [[e|rs'] sa ea em]; run_step; cbn in *.
      * split_and!; [by constructor|by apply prefix_cons|done].
      * rewrite app_nil_r.
        split_and!; [by constructor|by apply prefix_cons|].
        intros _ _. f_equal. by eapply IH3.
Qed.
End IdentityAll.

Lemma as_graph_elements_Some ts : as_graph_elements (map Some ts) = Some ts.
Proof. induction ts as [|t ts IH]; cbn; [done|]. by rewrite IH. Qed.

Lemma as_graph_elements_None l : None ∈ l -> as_graph_elements l = None.
Proof.
  induction l as [|[t|] l IH]; intros Hin.
  - by apply not_elem_of_nil in Hin.
  - apply elem_of_cons in Hin as [|Hin]; [done|]. cbn. by rewrite IH.
  - done.
Qed.

Lemma as_graph_elements_inv l ts : as_graph_elements l = Some ts -> l = map Some ts.
Proof.
  revert ts. induction l as [|[t|] l IH]; intros ts; cbn.
  - by intros [= <-].
  - destruct (as_graph_elements l) as [ts'|]; cbn; [|done].
    intros [= <-]. cbn. f_equal. by apply IH.
  - done.
Qed.

(** A result with more log entries in front. *)
Definition prepend {St S A} (l : list entry) (r : result St S A) : result St S A :=
  Result (outcome r) (self_after r) (env_after r) (l ++ emitted r).

(** The deferred path, up to the [tf.identity] calls. *)
Lemma run__allreduce_deferred (E : env) (w : wrapper) (gs : list grad)
    (p : profile_helper) (ctx : list scope) (n : Z) (sess : pyobj)
    (start comm_end : tensor) (rs : list tensor)
    (s0 s1 s2 s3 s4 s5 s6 : env_state E) :
  _executing_eagerly w = false ->
  grads w = Some gs ->
  _profile_helper w = Some p ->
  handle E hvd_size s0 = (inr n, s1) ->
  (1 < n)%Z ->
  handle E tf_get_session s1 = (inr sess, s2) ->
  handle E (agg_init_aggregation_vars (_agg_helper w) gs sess) s2 = (inr tt, s3) ->
  handle E (profile_start p) s3 = (inr start, s4) ->
  handle E (agg_compute_gradients (_agg_helper w) gs) s4 = (inr (map Some rs), s5) ->
  handle E (profile_end p) s5 = (inr comm_end, s6) ->
  run E _allreduce ctx w s0
  = prepend
      [ Entry ctx hvd_size (inr n);
        Entry ctx tf_get_session (inr sess);
        Entry ctx (agg_init_aggregation_vars (_agg_helper w) gs sess) (inr tt);
        Entry ctx (profile_start p) (inr start);
        Entry (control_dependencies [start] :: ctx)
          (agg_compute_gradients (_agg_helper w) gs) (inr (map Some rs));
        Entry (control_dependencies rs :: ctx) (profile_end p) (inr comm_end) ]
      (run E (identity_all (map Some rs))
         (control_dependencies [comm_end] :: ctx)
         (set__aggregated_gradients true w) s6).
Proof.
  intros Heager Hg Hp Hsize Hn Hsess Hinit Hstart Hcomp Hend.
  rewrite run__allreduce. unfold _allreduce_body, self_grads, self__profile_helper.
  destruct w as [cl dd ds cp sad ag eager h ph g b].
  cbn in Heager, Hg, Hp, Hinit, Hcomp; subst.
  self_step. rewrite !Hsize. self_step.
  replace (n >? 1)%Z with true by (symmetry; apply Z.gtb_lt; lia).
  self_step. rewrite !Hsess. self_step. rewrite !Hinit. self_step.
  rewrite !Hstart. self_step.
  unfold tf_control_dependencies. cbn [as_graph_elements option_map].
  self_step. rewrite !Hcomp. self_step.
  rewrite !as_graph_elements_Some.
  self_step. rewrite !Hend. self_step.
  self_step. unfold prepend.
  destruct (run E (identity_all (map Some rs)) _ _ s6) as [[e|out] sa ea em];
    reflexivity.
Qed.

(** C6.  Deferred mode, more than one participant, every collaborator
    answers and the helper returns tensors [rs].  Then the calls of
    [_allreduce] are, in this order and in these contexts:
    [profile_start] outside any dependency block;
    the helper's [compute_gradients] inside
    [control_dependencies [start]], [start] being what [profile_start]
    returned; [profile_end] inside [control_dependencies rs], all the
    reduced gradients; and every [tf.identity], one per reduced gradient,
    inside [control_dependencies [comm_end]], [comm_end] being what
    [profile_end] returned.  The list returned is made of the answers of
    these [tf.identity] calls. *)
Theorem deferred_dependency_edges (E : env) (w : wrapper) (gs : list grad)
    (p : profile_helper) (ctx : list scope) (n : Z) (sess : pyobj)
    (start comm_end : tensor) (rs : list tensor)
    (s0 s1 s2 s3 s4 s5 s6 : env_state E) :
  _executing_eagerly w = false ->
  grads w = Some gs ->
  _profile_helper w = Some p ->
  handle E hvd_size s0 = (inr n, s1) ->
  (1 < n)%Z ->
  handle E tf_get_session s1 = (inr sess, s2) ->
  handle E (agg_init_aggregation_vars (_agg_helper w) gs sess) s2 = (inr tt, s3) ->
  handle E (profile_start p) s3 = (inr start, s4) ->
  handle E (agg_compute_gradients (_agg_helper w) gs) s4 = (inr (map Some rs), s5) ->
  handle E (profile_end p) s5 = (inr comm_end, s6) ->
  exists ids : list entry,
    emitted (run E _allreduce ctx w s0)
    = [ Entry ctx hvd_size (inr n);
        Entry ctx tf_get_session (inr sess);
        Entry ctx (agg_init_aggregation_vars (_agg_helper w) gs sess) (inr tt);
        Entry ctx (profile_start p) (inr start);
        Entry (control_dependencies [start] :: ctx)
          (agg_compute_gradients (_agg_helper w) gs) (inr (map Some rs));
        Entry (control_dependencies rs :: ctx) (profile_end p) (inr comm_end) ]
      ++ ids
    /\ Forall (fun e => e_ctx e = control_dependencies [comm_end] :: ctx) ids
    /\ calls ids `prefix_of` map tf_identity rs
    /\ forall out : list grad,
         outcome (run E _allreduce ctx w s0) = inr out ->
         calls ids = map tf_identity rs
         /\ out = map Some (identity_answers ids).
Proof.
  intros Heager Hg Hp Hsize Hn Hsess Hinit Hstart Hcomp Hend.
  rewrite (@run__allreduce_deferred E w gs p ctx n sess start comm_end rs
             s0 s1 s2 s3 s4 s5 s6) by assumption.
  set (w' := set__aggregated_gradients true w).
  destruct (identity_all_calls E rs (control_dependencies [comm_end] :: ctx) w' s6)
    as (Hctx & Hpre & Hall).
  pose proof (identity_all_returns_tensors E (map Some rs)
                (control_dependencies [comm_end] :: ctx) w' s6) as Hret.
  exists (emitted (run E (identity_all (map Some rs))
                     (control_dependencies [comm_end] :: ctx) w' s6)).
  unfold prepend; cbn [outcome emitted].
  split_and!; try done.
  intros out Hout. split; [by apply (Hall out)|].
  by destruct (Hret out Hout).
Qed.

Definition sample_dense_grads : list grad :=
  [Some (Tensor 10); Some (IndexedSlices 11)].

Lemma deferred_dependency_edges_witness :
  exists ids : list entry,
    emitted (run (sample_env 2 false) _allreduce []
               (sample_wrapper false (Some sample_dense_grads)) 0%N)
    = [ Entry [] hvd_size (inr 2%Z);
        Entry [] tf_get_session (inr (PyObj 0));
        Entry [] (agg_init_aggregation_vars (AggHelper 1) sample_dense_grads
                    (PyObj 0)) (inr tt);
        Entry [] (profile_start (ProfileHelper 3)) (inr (Operation 0));
        Entry [control_dependencies [Operation 0]]
          (agg_compute_gradients (AggHelper 1) sample_dense_grads)
          (inr (map Some [Tensor 1; Tensor 2]));
        Entry [control_dependencies [Tensor 1; Tensor 2]]
          (profile_end (ProfileHelper 3)) (inr (Operation 3)) ]
      ++ ids
    /\ Forall (fun e => e_ctx e = [control_dependencies [Operation 3]]) ids
    /\ calls ids `prefix_of` map tf_identity [Tensor 1; Tensor 2]
    /\ forall out : list grad,
         outcome (run (sample_env 2 false) _allreduce []
                    (sample_wrapper false (Some sample_dense_grads)) 0%N)
         = inr out ->
         calls ids = map tf_identity [Tensor 1; Tensor 2]
         /\ out = map Some (identity_answers ids).
Proof.
  apply (@deferred_dependency_edges (sample_env 2 false)
           (sample_wrapper false (Some sample_dense_grads)) sample_dense_grads
           (ProfileHelper 3) [] 2%Z (PyObj 0) (Operation 0) (Operation 3)
           [Tensor 1; Tensor 2] 0%N 0%N 0%N 0%N 1%N 3%N 4%N);
    first [reflexivity | lia].
Defined.

(** ** [None] on the deferred path *)

Lemma then_inr (E : env) {St A B} (r : result St (env_state E) A)
    (f : A -> list scope -> St -> env_state E -> result St (env_state E) B)
    ctx b :
  outcome (then_ E r f ctx) = inr b ->
  exists a, outcome r = inr a
            /\ outcome (f a ctx (self_after r) (env_after r)) = inr b.
Proof.
  unfold then_. destruct (outcome r) as [e|a]; cbn; [done|]. by exists a.
Qed.

(** In deferred mode with more than one participant, every entry of the
    list [_allreduce] returns is the answer of a [tf.identity] call. *)
Lemma _allreduce_deferred_returns_tensors (E : env) (w : wrapper)
    (ctx : list scope) (n : Z) (s s1 : env_state E) (out : list grad) :
  _executing_eagerly w = false ->
  handle E hvd_size s = (inr n, s1) ->
  (1 < n)%Z ->
  outcome (run E _allreduce ctx w s) = inr out ->
  Forall (fun g => g <> None) out.
Proof.
  intros Heager Hsize Hn. rewrite run__allreduce. unfold _allreduce_body.
  destruct w as [cl dd ds cp sad ag eager h ph g b]. cbn in Heager; subst.
  self_step. rewrite !Hsize. self_step.
  replace (n >? 1)%Z with true by (symmetry; apply Z.gtb_lt; lia).
  intros H.
  repeat (rewrite run_bind in H; apply then_inr in H as (? & _ & H)).
  unfold tf_control_dependencies in H. cbn [as_graph_elements option_map] in H.
  rewrite run_with_ in H.
  apply identity_all_returns_tensors in H as (-> & _ & _).
  apply Forall_forall. intros g' (t & -> & _)%list_elem_of_fmap. done.
Qed.

(** C4 (what the code does).  In deferred mode with more than one
    participant, a batch with a [None] entry never comes back with [None]
    at the positions it had: either the call raises, or the list it returns
    holds no [None] at all.  This holds whatever the aggregation helper
    returns. *)
Theorem _allreduce_deferred_loses_None (E : env) (w : wrapper) (gs : list grad)
    (ctx : list scope) (n : Z) (s s1 : env_state E) :
  _executing_eagerly w = false ->
  grads w = Some gs ->
  None ∈ gs ->
  handle E hvd_size s = (inr n, s1) ->
  (1 < n)%Z ->
  ~ exists out : list grad,
      outcome (run E _allreduce ctx w s) = inr out
      /\ forall i : nat, out !! i = Some None <-> gs !! i = Some None.
Proof.
  intros Heager Hg Hin Hsize Hn (out & Hout & Hpos).
  pose proof (@_allreduce_deferred_returns_tensors E w ctx n s s1 out
                Heager Hsize Hn Hout) as Hall.
  apply list_elem_of_lookup in Hin as [i Hi].
  apply Hpos in Hi. rewrite Forall_forall in Hall.
  apply (Hall None); [|done]. apply list_elem_of_lookup. by exists i.
Qed.

Definition sample_grads_with_None : list grad := [Some (Tensor 10); None].

(** With the helper handing [None] back in place, as the reduction
    function does, the deferred path raises at
    [tf.control_dependencies(allreduced_grads)]. *)
Example _allreduce_deferred_None_raises :
  outcome (run (sample_env 2 false) _allreduce []
             (sample_wrapper false (Some sample_grads_with_None)) 0%N)
  = inl (TypeError "Can not convert a NoneType into a Tensor or Operation.").
Proof. reflexivity. Qed.

(** The same batch passes where the sibling paths are taken. *)
Example _allreduce_eager_None_passes :
  outcome (run (sample_env 2 true) _allreduce []
             (sample_wrapper true (Some sample_grads_with_None)) 0%N)
  = inr [Some (Tensor 0); None].
Proof. reflexivity. Qed.

Lemma _allreduce_deferred_loses_None_witness :
  ~ exists out : list grad,
      outcome (run (sample_env 2 false) _allreduce []
                 (sample_wrapper false (Some sample_grads_with_None)) 0%N)
      = inr out
      /\ forall i : nat,
           out !! i = Some None <-> sample_grads_with_None !! i = Some None.
Proof.
  apply (@_allreduce_deferred_loses_None (sample_env 2 false)
           (sample_wrapper false (Some sample_grads_with_None))
           sample_grads_with_None [] 2%Z 0%N 0%N).
  - reflexivity.
  - reflexivity.
  - unfold sample_grads_with_None. apply list_elem_of_In. cbn. tauto.
  - reflexivity.
  - lia.
Defined.

(** ** Construction *)

Section Construction.
Variable name : option string.
Variables device_dense device_sparse compression : pyobj.
Variable sparse_as_dense : bool.
Variables aggregation_frequency grad_updated_sizes_dict : pyobj.
Variables profile_frequency profile_filename : pyobj.
Variable average_aggregated_gradients : pyobj.

Local Abbreviation init := (__init__ name device_dense device_sparse compression
  sparse_as_dense aggregation_frequency grad_updated_sizes_dict
  profile_frequency profile_filename average_aggregated_gradients).
Local Abbreviation create := (create_distributed_optimizer name device_dense
  device_sparse compression sparse_as_dense aggregation_frequency
  grad_updated_sizes_dict profile_frequency profile_filename
  average_aggregated_gradients).

(** What a returned instance looks like. *)
Lemma __init___returns (E : env) {St} cls kwargs ctx (self : St) s w :
  outcome (run E (init cls kwargs) ctx self s) = inr w ->
  exists eager h ph base,
    w = Wrapper cls device_dense device_sparse
          compression sparse_as_dense false eager h ph None base
    /\ (eager = true <-> ph = None).
Proof.
  unfold __init__. intros H.
  rewrite run_bind in H. apply then_inr in H as (eager & _ & H).
  rewrite run_bind in H. apply then_inr in H as ([h ph] & Hh & H).
  rewrite run_bind in H. apply then_inr in H as (base & _ & H).
  rewrite run_ret in H. injection H as <-.
  exists eager, h, ph, base. split; [done|].
  destruct eager; cbn [negb] in Hh.
  - rewrite run_bind in Hh. apply then_inr in Hh as (h' & _ & Hh).
    rewrite run_ret in Hh. by injection Hh as <- <-.
  - rewrite run_bind in Hh. apply then_inr in Hh as (h' & _ & Hh).
    rewrite run_bind in Hh. apply then_inr in Hh as (p' & _ & Hh).
    rewrite run_ret in Hh. by injection Hh as <- <-.
Qed.

Lemma create_distributed_optimizer_returns (E : env) {St} o ctx (self : St) s w :
  outcome (run E (create o) ctx self s) = inr w ->
  exists eager h ph base,
    w = Wrapper (TypeNew (__name__ (opt_class o)) (opt_class o))
          device_dense device_sparse compression sparse_as_dense false
          eager h ph None base
    /\ (eager = true <-> ph = None).
Proof.
  unfold create_distributed_optimizer, from_config. intros H.
  rewrite run_bind in H. apply then_inr in H as (config & _ & H).
  by apply __init___returns in H.
Qed.
End Construction.

(** ** The ordering flag *)

(** [sub] occurs in [s]. *)
Definition mentions (s sub : string) : bool :=
  match String.index 0 sub s with Some _ => true | None => false end.

Lemma run_apply_gradients_unarmed (E : env) w args kwargs ctx s :
  _aggregated_gradients w = false ->
  run E (apply_gradients args kwargs) ctx w s
  = Result (inl (Exception ordering_error)) w s [].
Proof.
  intros Hf. unfold apply_gradients. run_step. rewrite Hf. reflexivity.
Qed.

Lemma run_apply_gradients_armed (E : env) w args kwargs ctx s :
  _aggregated_gradients w = true ->
  run E (apply_gradients args kwargs) ctx w s
  = run E (ext (agg_apply_gradients (_agg_helper w)
                  (SuperApplyGradients (__base__ (__class__ w)) args kwargs)
                  args kwargs)) ctx w s.
Proof.
  intros Hf. unfold apply_gradients. run_step. rewrite Hf. cbn [negb].
  run_step. reflexivity.
Qed.

Lemma run__aggregate_gradients (E : env) gv ctx w s :
  run E (_aggregate_gradients gv) ctx w s
  = run E _allreduce ctx (set_grads (map fst gv) w) s.
Proof.
  unfold _aggregate_gradients. run_step.
  destruct (run E _allreduce ctx _ s) as [[e|a] sa ea em]; reflexivity.
Qed.

Lemma run_get_gradients_ok (E : env) loss params ctx w s g s' :
  handle E (super_get_gradients (__base__ (__class__ w)) loss params) s
  = (inr g, s') ->
  run E (get_gradients loss params) ctx w s
  = prepend [Entry ctx (super_get_gradients (__base__ (__class__ w)) loss params)
               (inr g)]
      (run E _allreduce ctx (set_grads g w) s').
Proof.
  intros Hg. unfold get_gradients. run_step. rewrite !Hg. run_step.
  unfold prepend.
  destruct (run E _allreduce ctx _ s') as [[e|a] sa ea em]; reflexivity.
Qed.

Lemma run_get_gradients_raises (E : env) loss params ctx w s e s' :
  handle E (super_get_gradients (__base__ (__class__ w)) loss params) s
  = (inl e, s') ->
  run E (get_gradients loss params) ctx w s
  = Result (inl e) w s'
      [Entry ctx (super_get_gradients (__base__ (__class__ w)) loss params)
         (inl e)].
Proof.
  intros Hg. unfold get_gradients. run_step. rewrite !Hg. run_step.
  reflexivity.
Qed.

(** C1.  On the instance [create_distributed_optimizer] returns,
    [apply_gradients] raises at once, with no external call, an exception
    whose message names [apply_gradients()], [get_gradients()] and
    [_aggregate_gradients].  After a call of [_aggregate_gradients], and
    after a call of [get_gradients] in which the wrapped optimizer returned
    the gradients, however the reduction that follows ends,
    [apply_gradients] is one call of the aggregation helper's
    [apply_gradients], with the arguments of the call and with a closure
    that calls the [apply_gradients] of the wrapped optimizer's class on
    them; what the helper answers is what [apply_gradients] returns. *)
Theorem apply_gradients_ordering (E : env)
    (name : option string) (device_dense device_sparse compression : pyobj)
    (sparse_as_dense : bool)
    (aggregation_frequency grad_updated_sizes_dict : pyobj)
    (profile_frequency profile_filename average_aggregated_gradients : pyobj)
    (o : optimizer) (St : Type) (self0 : St) (ctx0 : list scope)
    (s0 : env_state E) (w : wrapper)
    (args : list pyobj) (kwargs : kwargs_t) (ctx : list scope) (s : env_state E) :
  outcome (run E (create_distributed_optimizer name device_dense device_sparse
                    compression sparse_as_dense aggregation_frequency
                    grad_updated_sizes_dict profile_frequency profile_filename
                    average_aggregated_gradients o) ctx0 self0 s0) = inr w ->
  let delegate :=
    agg_apply_gradients (_agg_helper w)
      (SuperApplyGradients (opt_class o) args kwargs) args kwargs in
  run E (apply_gradients args kwargs) ctx w s
  = Result (inl (Exception ordering_error)) w s []
  /\ mentions ordering_error "`apply_gradients()`" = true
  /\ mentions ordering_error "`get_gradients()`" = true
  /\ mentions ordering_error "`_aggregate_gradients`" = true
  /\ call_update_fn (SuperApplyGradients (opt_class o) args kwargs)
     = (ext (super_apply_gradients (opt_class o) args kwargs) : prog wrapper pyobj)
  /\ (forall gv ctx1 s1,
        let w1 := self_after (run E (_aggregate_gradients gv) ctx1 w s1) in
        run E (apply_gradients args kwargs) ctx w1 s
        = Result (fst (handle E delegate s)) w1 (snd (handle E delegate s))
            [Entry ctx delegate (fst (handle E delegate s))])
  /\ (forall loss params ctx1 s1 g s2,
        handle E (super_get_gradients (opt_class o) loss params) s1 = (inr g, s2) ->
        let w1 := self_after (run E (get_gradients loss params) ctx1 w s1) in
        run E (apply_gradients args kwargs) ctx w1 s
        = Result (fst (handle E delegate s)) w1 (snd (handle E delegate s))
            [Entry ctx delegate (fst (handle E delegate s))]).
Proof.
  intros Hw delegate.
  apply create_distributed_optimizer_returns in Hw
    as (eager & h & ph & base & -> & _).
  split_and!; [by apply run_apply_gradients_unarmed|reflexivity..| |].
  - intros gv ctx1 s1 w1. subst w1.
    rewrite run__aggregate_gradients, _allreduce_self_after.
    rewrite run_apply_gradients_armed by reflexivity.
    exact (run_ext E delegate ctx _ s).
  - intros loss params ctx1 s1 g s2 Hg w1. subst w1.
    match goal with |- context [run E (get_gradients _ _) _ ?w0 _] =>
      rewrite (@run_get_gradients_ok E loss params ctx1 w0 s1 g s2 Hg)
    end.
    unfold prepend; cbn [self_after]. rewrite _allreduce_self_after.
    rewrite run_apply_gradients_armed by reflexivity.
    exact (run_ext E delegate ctx _ s).
Qed.

Definition sample_optimizer : optimizer :=
  Optimizer (Class "Adam" "keras.optimizers") 42.

Definition sample_create {St} : prog St wrapper :=
  create_distributed_optimizer None (PyObj 1) (PyObj 2) (PyObj 3) true
    (PyObj 4) (PyObj 5) (PyObj 6) (PyObj 7) (PyObj 8) sample_optimizer.

Example sample_create_returns :
  outcome (run (sample_env 2 false) sample_create [] tt 0%N)
  = inr (sample_wrapper false None).
Proof. reflexivity. Qed.

Lemma apply_gradients_ordering_witness :
  outcome (run (sample_env 2 false) (apply_gradients [PyObj 20] []) []
             (sample_wrapper false None) 0%N)
  = inl (Exception ordering_error)
  /\ outcome (run (sample_env 2 false) (apply_gradients [PyObj 20] []) []
               (self_after (run (sample_env 2 false)
                              (_aggregate_gradients [(Some (Tensor 10), PyObj 30)])
                              [] (sample_wrapper false None) 0%N)) 0%N)
     = inr (PyObj 7)
  /\ outcome (run (sample_env 2 false) (apply_gradients [PyObj 20] []) []
               (self_after (run (sample_env 2 false)
                              (get_gradients (PyObj 31) (PyObj 32))
                              [] (sample_wrapper false None) 0%N)) 0%N)
     = inr (PyObj 7).
Proof.
  destruct (@apply_gradients_ordering (sample_env 2 false) None (PyObj 1)
              (PyObj 2) (PyObj 3) true (PyObj 4) (PyObj 5) (PyObj 6) (PyObj 7)
              (PyObj 8) sample_optimizer unit tt [] 0%N
              (sample_wrapper false None) [PyObj 20] [] [] 0%N eq_refl)
    as (H1 & _ & _ & _ & _ & H2 & H3).
  split_and!.
  - rewrite H1. reflexivity.
  - rewrite (H2 [(Some (Tensor 10), PyObj 30)] [] 0%N). reflexivity.
  - rewrite (H3 (PyObj 31) (PyObj 32) [] 0%N _ 0%N eq_refl). reflexivity.
Defined.

(** ** The flag as a latch *)

(** A method call on an instance. *)
Inductive method_call : Type :=
  | m_get_gradients (loss params : pyobj)
  | m__aggregate_gradients (grads_and_vars : list (grad * pyobj))
  | m__allreduce
  | m_apply_gradients (args : list pyobj) (kwargs : kwargs_t).

(** The instance and the environment after a call, whether it returned or
    raised. *)
Definition invoke (E : env) (m : method_call) (ctx : list scope)
    (w : wrapper) (s : env_state E) : wrapper * env_state E :=
  match m with
  | m_get_gradients loss params =>
      let r := run E (get_gradients loss params) ctx w s in
      (self_after r, env_after r)
  | m__aggregate_gradients gv =>
      let r := run E (_aggregate_gradients gv) ctx w s in
      (self_after r, env_after r)
  | m__allreduce =>
      let r := run E _allreduce ctx w s in (self_after r, env_after r)
  | m_apply_gradients args kwargs =>
      let r := run E (apply_gradients args kwargs) ctx w s in
      (self_after r, env_after r)
  end.

Fixpoint invoke_all (E : env) (ms : list method_call) (ctx : list scope)
    (w : wrapper) (s : env_state E) : wrapper * env_state E :=
  match ms with
  | [] => (w, s)
  | m :: ms' =>
      let '(w', s') := invoke E m ctx w s in invoke_all E ms' ctx w' s'
  end.

(** Whether a call gets as far as [_allreduce]: [get_gradients] does when
    the wrapped optimizer returns the gradients. *)
Definition reaches__allreduce (E : env) (m : method_call) (w : wrapper)
    (s : env_state E) : bool :=
  match m with
  | m_get_gradients loss params =>
      match fst (handle E (super_get_gradients (__base__ (__class__ w))
                             loss params) s) with
      | inr _ => true
      | inl _ => false
      end
  | m__aggregate_gradients _ => true
  | m__allreduce => true
  | m_apply_gradients _ _ => false
  end.

Lemma invoke_flag (E : env) m ctx w s :
  _aggregated_gradients (fst (invoke E m ctx w s))
  = _aggregated_gradients w || reaches__allreduce E m w s.
Proof.
  destruct m as [loss params|gv| |args kwargs];
    cbn [invoke reaches__allreduce fst].
  - destruct (handle E (super_get_gradients (__base__ (__class__ w)) loss params) s)
      as [[e|g] s'] eqn:Hg; cbn [fst].
    + rewrite (@run_get_gradients_raises E loss params ctx w s e s' Hg). cbn.
      by rewrite orb_false_r.
    + rewrite (@run_get_gradients_ok E loss params ctx w s g s' Hg).
      unfold prepend; cbn [self_after].
      rewrite _allreduce_self_after. cbn. by rewrite orb_true_r.
  - rewrite run__aggregate_gradients, _allreduce_self_after. cbn.
    by rewrite orb_true_r.
  - rewrite _allreduce_self_after. cbn. by rewrite orb_true_r.
  - rewrite orb_false_r.
    destruct (_aggregated_gradients w) eqn:Hf.
    + rewrite run_apply_gradients_armed, run_ext by done. done.
    + rewrite run_apply_gradients_unarmed by done. done.
Qed.

(** C7.  The instance [create_distributed_optimizer] returns has the flag
    unset.  A method call sets it exactly when it gets as far as
    [_allreduce], however the call ends; no call unsets it: after any
    sequence of calls on an instance whose flag is set, it is still set. *)
Theorem _aggregated_gradients_latch (E : env)
    (name : option string) (device_dense device_sparse compression : pyobj)
    (sparse_as_dense : bool)
    (aggregation_frequency grad_updated_sizes_dict : pyobj)
    (profile_frequency profile_filename average_aggregated_gradients : pyobj) :
  (forall (o : optimizer) (St : Type) (self0 : St) ctx0 s0 w,
     outcome (run E (create_distributed_optimizer name device_dense device_sparse
                       compression sparse_as_dense aggregation_frequency
                       grad_updated_sizes_dict profile_frequency profile_filename
                       average_aggregated_gradients o) ctx0 self0 s0) = inr w ->
     _aggregated_gradients w = false)
  /\ (forall m ctx w s,
        _aggregated_gradients (fst (invoke E m ctx w s))
        = _aggregated_gradients w || reaches__allreduce E m w s)
  /\ (forall ms ctx w s,
        _aggregated_gradients w = true ->
        _aggregated_gradients (fst (invoke_all E ms ctx w s)) = true).
Proof.
  split_and!.
  - intros o St self0 ctx0 s0 w Hw.
    by apply create_distributed_optimizer_returns in Hw
      as (eager & h & ph & base & -> & _).
  - apply invoke_flag.
  - intros ms ctx. induction ms as [|m ms IH]; intros w s Hf; [done|].
    cbn [invoke_all]. pose proof (invoke_flag E m ctx w s) as Hm.
    destruct (invoke E m ctx w s) as [w' s']. cbn [fst] in Hm.
    apply IH. by rewrite Hm, Hf.
Qed.

Lemma _aggregated_gradients_latch_witness :
  _aggregated_gradients (sample_wrapper false None) = false
  /\ _aggregated_gradients
       (fst (invoke_all (sample_env 2 false)
               [m__aggregate_gradients [(Some (Tensor 10), PyObj 30)];
                m_apply_gradients [] [];
                m_get_gradients (PyObj 31) (PyObj 32);
                m_apply_gradients [] []] []
               (fst (invoke (sample_env 2 false) m__allreduce []
                       (sample_wrapper false None) 0%N)) 0%N))
     = true.
Proof.
  destruct (@_aggregated_gradients_latch (sample_env 2 false) None (PyObj 1)
              (PyObj 2) (PyObj 3) true (PyObj 4) (PyObj 5) (PyObj 6) (PyObj 7)
              (PyObj 8)) as (H1 & H2 & H3).
  split.
  - exact (H1 sample_optimizer unit tt [] 0%N (sample_wrapper false None) eq_refl).
  - apply H3. rewrite H2. reflexivity.
Defined.

(** ** create_distributed_optimizer *)

(** The calls of [__init__]. *)
Definition is_init_call (c : call) : bool :=
  match c with
  | hvd__executing_eagerly
  | LocalGradientAggregationHelper _ _ _ _ _
  | LocalGradientAggregationHelperEager _ _ _ _
  | TFProfileHelper _ _
  | super___init__ _ _ => true
  | _ => false
  end.

Section Frame.
Variable name : option string.
Variables device_dense device_sparse compression : pyobj.
Variable sparse_as_dense : bool.
Variables aggregation_frequency grad_updated_sizes_dict : pyobj.
Variables profile_frequency profile_filename : pyobj.
Variable average_aggregated_gradients : pyobj.

Local Abbreviation init := (__init__ name device_dense device_sparse compression
  sparse_as_dense aggregation_frequency grad_updated_sizes_dict
  profile_frequency profile_filename average_aggregated_gradients).
Local Abbreviation create := (create_distributed_optimizer name device_dense
  device_sparse compression sparse_as_dense aggregation_frequency
  grad_updated_sizes_dict profile_frequency profile_filename
  average_aggregated_gradients).

Lemma __init___calls (E : env) {St} cls kwargs ctx (self : St) s :
  Forall (fun e => is_init_call (e_call e) = true /\ e_ctx e = ctx)
    (emitted (run E (init cls kwargs) ctx self s))
  /\ self_after (run E (init cls kwargs) ctx self s) = self
  /\ forall w,
       outcome (run E (init cls kwargs) ctx self s) = inr w ->
       Entry ctx (super___init__ (__base__ cls) kwargs) (inr (base_state w))
       ∈ emitted (run E (init cls kwargs) ctx self s).
Proof.
  unfold __init__. run_step.
  destruct (handle E hvd__executing_eagerly s) as [[e|[|]] s1]; run_step;
    cbn [negb].
  - split_and!; [by repeat constructor|done|done].
  - run_step.
    destruct (handle E (LocalGradientAggregationHelperEager _ _ _ _) s1)
      as [[e|h] s2]; run_step.
    { split_and!; [by repeat constructor|done|done]. }
    destruct (handle E (super___init__ _ _) s2) as [[e|base] s3]; run_step.
    { split_and!; [by repeat constructor|done|done]. }
    split_and!; [by repeat constructor|done|].
    intros w [= <-]. cbn. set_solver.
  - run_step.
    destruct (handle E (LocalGradientAggregationHelper _ _ _ _ _) s1)
      as [[e|h] s2]; run_step.
    { split_and!; [by repeat constructor|done|done]. }
    destruct (handle E (TFProfileHelper _ _) s2) as [[e|p] s3]; run_step.
    { split_and!; [by repeat constructor|done|done]. }
    destruct (handle E (super___init__ _ _) s3) as [[e|base] s4]; run_step.
    { split_and!; [by repeat constructor|done|done]. }
    split_and!; [by repeat constructor|done|].
    intros w [= <-]. cbn. set_solver.
Qed.

Lemma run_create_distributed_optimizer (E : env) {St} o ctx (self : St) s
    config s1 :
  handle E (optimizer_get_config o) s = (inr config, s1) ->
  run E (create o) ctx self s
  = prepend [Entry ctx (optimizer_get_config o) (inr config)]
      (run E (from_config name device_dense device_sparse compression
                sparse_as_dense aggregation_frequency grad_updated_sizes_dict
                profile_frequency profile_filename average_aggregated_gradients
                (TypeNew (__name__ (opt_class o)) (opt_class o)) config)
         ctx self s1).
Proof.
  intros Hc. unfold create_distributed_optimizer. run_step. rewrite !Hc.
  run_step. unfold prepend.
  destruct (run E _ ctx self s1) as [[e|a] sa ea em]; reflexivity.
Qed.

(** C10.  [create_distributed_optimizer] first asks the optimizer it was
    given for its configuration, and that is the only call the instance
    ever receives: every later call is one of [__init__] on the new
    instance.  The instance returned is new: its class was made by [type],
    with the name of the optimizer's class and that class as its base; its
    flag is unset and it holds no gradients; its base part is what the
    initialiser of the optimizer's class made of the configuration.  Two
    optimizers of one class that report the same configuration give the
    same instance, the same later calls and the same environment,
    whatever else the two hold. *)
Theorem create_distributed_optimizer_frame (E : env) (St : Type)
    (o : optimizer) (ctx : list scope) (self : St) (s : env_state E) :
  (exists rest : list entry,
     emitted (run E (create o) ctx self s)
     = Entry ctx (optimizer_get_config o) (fst (handle E (optimizer_get_config o) s))
       :: rest
     /\ Forall (fun e => is_init_call (e_call e) = true) rest)
  /\ self_after (run E (create o) ctx self s) = self
  /\ (forall w : wrapper,
        outcome (run E (create o) ctx self s) = inr w ->
        __class__ w = TypeNew (__name__ (opt_class o)) (opt_class o)
        /\ __name__ (__class__ w) = __name__ (opt_class o)
        /\ __base__ (__class__ w) = opt_class o
        /\ _aggregated_gradients w = false
        /\ grads w = None
        /\ exists config s1,
             handle E (optimizer_get_config o) s = (inr config, s1)
             /\ Entry ctx (super___init__ (opt_class o) config)
                  (inr (base_state w))
                ∈ emitted (run E (create o) ctx self s))
  /\ (forall (o' : optimizer) config s1,
        opt_class o' = opt_class o ->
        handle E (optimizer_get_config o) s = (inr config, s1) ->
        handle E (optimizer_get_config o') s = (inr config, s1) ->
        outcome (run E (create o') ctx self s) = outcome (run E (create o) ctx self s)
        /\ env_after (run E (create o') ctx self s)
           = env_after (run E (create o) ctx self s)
        /\ tail (emitted (run E (create o') ctx self s))
           = tail (emitted (run E (create o) ctx self s))).
Proof.
  destruct (handle E (optimizer_get_config o) s) as [[e|config] s1] eqn:Hc.
  - assert (run E (create o) ctx self s
            = Result (inl e) self s1
                [Entry ctx (optimizer_get_config o) (inl e)]) as ->.
    { unfold create_distributed_optimizer. run_step. rewrite !Hc. by run_step. }
    cbn. split_and!; [by exists []|done|done|done].
  - rewrite (@run_create_distributed_optimizer E St o ctx self s config s1 Hc).
    unfold prepend, from_config; cbn [outcome self_after env_after emitted fst app].
    destruct (@__init___calls E St (TypeNew (__name__ (opt_class o)) (opt_class o))
                config ctx self s1) as (Hcalls & Hself & Hbase).
    split_and!.
    + eexists. split; [reflexivity|].
      eapply Forall_impl; [exact Hcalls|]. by intros e' [? _].
    + done.
    + intros w Hw.
      pose proof (Hbase w Hw) as Hin.
      apply __init___returns in Hw as (eager & h & ph & base & -> & _).
      split_and!; try done.
      exists config, s1. split; [done|]. cbn in Hin |- *. set_solver.
    + intros o' config' s1' Hcls Hc1 Hc2. injection Hc1 as <- <-.
      rewrite (@run_create_distributed_optimizer E St o' ctx self s config s1 Hc2).
      unfold prepend, from_config; cbn [outcome self_after env_after emitted tail app].
      by rewrite Hcls.
Qed.
End Frame.

Definition other_optimizer : optimizer :=
  Optimizer (Class "Adam" "keras.optimizers") 43.

Lemma create_distributed_optimizer_frame_witness :
  __class__ (sample_wrapper false None)
  = TypeNew "Adam" (Class "Adam" "keras.optimizers")
  /\ outcome (run (sample_env 2 false)
               (create_distributed_optimizer None (PyObj 1) (PyObj 2) (PyObj 3)
                  true (PyObj 4) (PyObj 5) (PyObj 6) (PyObj 7) (PyObj 8)
                  other_optimizer) [] tt 0%N)
     = outcome (run (sample_env 2 false) sample_create [] tt 0%N).
Proof.
  destruct (@create_distributed_optimizer_frame None (PyObj 1) (PyObj 2)
              (PyObj 3) true (PyObj 4) (PyObj 5) (PyObj 6) (PyObj 7) (PyObj 8)
              (sample_env 2 false) unit sample_optimizer [] tt 0%N)
    as (_ & _ & H3 & H4).
  split.
  - exact (proj1 (H3 (sample_wrapper false None) eq_refl)).
  - exact (proj1 (H4 other_optimizer [("learning_rate", PyObj 9)] 0%N
                    eq_refl eq_refl eq_refl)).
Defined.

(** ** load_model *)

(** [str.lower()] as it acts on ASCII text: the letters A to Z are
    lowered, every other byte is kept.  It stands in for [str.lower] in
    the examples, whose class names are ASCII; the theorems are about any
    lowering function. *)
Definition lower_ascii (a : ascii) : ascii :=
  let n := N_of_ascii a in
  if ((65 <=? n) && (n <=? 90))%N then ascii_of_N (n + 32) else a.

Fixpoint ascii_lower (s : string) : string :=
  match s with
  | EmptyString => EmptyString
  | String a s' => String (lower_ascii a) (ascii_lower s')
  end.

Section LoadModel.
(** What the table holds (wrapped optimizer classes, custom objects) and
    what loading returns. *)
Variables V Model : Type.
(** [keras.optimizers.Optimizer.__subclasses__()] and
    [keras.models.load_model]. *)
Variable Optimizer___subclasses__ : list pyclass.
Variable keras_models_load_model : pyobj -> gmap string V -> Model.
Variable wrap_optimizer : pyclass -> V.
(** [str.lower], the method of Python's strings that line 180 calls on
    the class names: any function on strings. *)
Variable lower : string -> string.

(** A dict comprehension: entries are stored in order, a later entry
    replaces an earlier one with the same key. *)
Definition dict_of (items : list (string * V)) : gmap string V :=
  foldl (fun d kv => <[kv.1 := kv.2]> d) ∅ items.

(** [d.update(other)]: the entries of [other] replace those of [d]. *)
Definition dict_update (d other : gmap string V) : gmap string V := other ∪ d.

Definition horovod_objects (optimizer_modules : list string)
    (custom_optimizers : option (list pyclass))
    (custom_objects : option (gmap string V)) : gmap string V :=
  let horovod_objects :=
    dict_of (map (fun subclass => (lower (__name__ subclass), wrap_optimizer subclass))
               (List.filter (fun subclass =>
                               bool_decide (__module__ subclass ∈ optimizer_modules))
                  Optimizer___subclasses__)) in
  let horovod_objects :=
    match custom_optimizers with
    | Some custom_optimizers =>
        dict_update horovod_objects
          (dict_of (map (fun cls => (__name__ cls, wrap_optimizer cls))
                      custom_optimizers))
    | None => horovod_objects
    end in
  let horovod_objects :=
    match custom_objects with
    | Some custom_objects => dict_update horovod_objects custom_objects
    | None => horovod_objects
    end in
  horovod_objects.

Definition load_model (optimizer_modules : list string) (filepath : pyobj)
    (custom_optimizers : option (list pyclass))
    (custom_objects : option (gmap string V)) : Model :=
  keras_models_load_model filepath
    (horovod_objects optimizer_modules custom_optimizers custom_objects).

(** The last class of a list whose key is [k]. *)
Definition last_keyed (key : pyclass -> string) (k : string)
    (l : list pyclass) : option pyclass :=
  last (List.filter (fun c => bool_decide (key c = k)) l).

Lemma dict_of_snoc items k v : dict_of (items ++ [(k, v)]) = <[k := v]> (dict_of items).
Proof. unfold dict_of. by rewrite foldl_app. Qed.

Lemma dict_of_classes_lookup (key : pyclass -> string) (l : list pyclass) k :
  dict_of (map (fun c => (key c, wrap_optimizer c)) l) !! k
  = wrap_optimizer <$> last_keyed key k l.
Proof.
  unfold last_keyed.
  induction l as [|c l IH] using rev_ind; [done|].
  rewrite map_app, List.filter_app. cbn [map List.filter].
  rewrite dict_of_snoc. cbn [fst snd].
  destruct (decide (key c = k)) as [Heq|Hne].
  - rewrite bool_decide_true by done. rewrite last_snoc.
    subst k. by rewrite lookup_insert_eq.
  - rewrite bool_decide_false by done. rewrite app_nil_r.
    by rewrite lookup_insert_ne.
Qed.
Lemma last_keyed_Some key k l c :
  last_keyed key k l = Some c -> c ∈ l /\ key c = k.
Proof.
  unfold last_keyed. intros Hl. apply last_Some_elem_of in Hl.
  apply list_elem_of_In, List.filter_In in Hl as [Hin Hk].
  apply bool_decide_eq_true in Hk. split; [by apply list_elem_of_In|done].
Qed.

Lemma last_keyed_is_Some key k l c :
  c ∈ l -> key c = k -> is_Some (last_keyed key k l).
Proof.
  unfold last_keyed. intros Hin Hk.
  assert (c ∈ List.filter (fun c => bool_decide (key c = k)) l) as Hc.
  { apply list_elem_of_In, List.filter_In. split; [by apply list_elem_of_In|].
    by apply bool_decide_eq_true. }
  destruct (last _) as [x|] eqn:Hl; [by eexists|].
  apply last_None in Hl. rewrite Hl in Hc. by apply not_elem_of_nil in Hc.
Qed.

Lemma last_keyed_None key k l :
  (forall c, c ∈ l -> key c <> k) -> last_keyed key k l = None.
Proof.
  intros Hne. destruct (last_keyed key k l) as [c|] eqn:Hl; [|done].
  apply last_keyed_Some in Hl as [Hin Hk]. by destruct (Hne c Hin).
Qed.

Lemma dict_update_lookup (d other : gmap string V) k :
  dict_update d other !! k
  = match other !! k with Some v => Some v | None => d !! k end.
Proof.
  unfold dict_update. rewrite lookup_union.
  destruct (other !! k), (d !! k); reflexivity.
Qed.

(** The built-in optimizer classes [load_model] wraps. *)
Definition known_optimizers (optimizer_modules : list string) : list pyclass :=
  List.filter (fun subclass => bool_decide (__module__ subclass ∈ optimizer_modules))
    Optimizer___subclasses__.

Lemma horovod_objects_lookup optimizer_modules custom_optimizers custom_objects k :
  horovod_objects optimizer_modules custom_optimizers custom_objects !! k
  = match custom_objects ≫= (fun d => d !! k) with
    | Some v => Some v
    | None =>
        match custom_optimizers ≫= last_keyed __name__ k with
        | Some cls => Some (wrap_optimizer cls)
        | None =>
            wrap_optimizer <$>
              last_keyed (fun subclass => lower (__name__ subclass)) k
                (known_optimizers optimizer_modules)
        end
    end.
Proof.
  unfold horovod_objects, known_optimizers.
  destruct custom_objects as [d|]; cbn [mbind option_bind].
  - rewrite dict_update_lookup. destruct (d !! k) as [v|]; [done|].
    destruct custom_optimizers as [cs|]; cbn [mbind option_bind].
    + rewrite dict_update_lookup, !dict_of_classes_lookup.
      by destruct (last_keyed __name__ k cs).
    + by rewrite dict_of_classes_lookup.
  - destruct custom_optimizers as [cs|]; cbn [mbind option_bind].
    + rewrite dict_update_lookup, !dict_of_classes_lookup.
      by destruct (last_keyed __name__ k cs).
    + by rewrite dict_of_classes_lookup.
Qed.

(** C8.  [load_model] hands [keras.models.load_model] the file path and
    one table.  Under a key, the table holds the entry of [custom_objects]
    if there is one; otherwise the wrapped class of [custom_optimizers]
    with that name (the last one, if several) if there is one; otherwise
    the wrapped built-in optimizer class whose lowercased name is the key
    (the last one, if several), if there is one. *)
Theorem load_model_precedence (optimizer_modules : list string) (filepath : pyobj)
    (custom_optimizers : option (list pyclass))
    (custom_objects : option (gmap string V)) (k : string) :
  load_model optimizer_modules filepath custom_optimizers custom_objects
  = keras_models_load_model filepath
      (horovod_objects optimizer_modules custom_optimizers custom_objects)
  /\ horovod_objects optimizer_modules custom_optimizers custom_objects !! k
     = match custom_objects ≫= (fun d => d !! k) with
       | Some v => Some v
       | None =>
           match custom_optimizers ≫= last_keyed __name__ k with
           | Some cls => Some (wrap_optimizer cls)
           | None =>
               wrap_optimizer <$>
                 last_keyed (fun subclass => lower (__name__ subclass)) k
                   (known_optimizers optimizer_modules)
           end
       end.
Proof. split; [reflexivity|apply horovod_objects_lookup]. Qed.

(** C9.  Built-in optimizer classes are stored under their lowercased
    name, classes of [custom_optimizers] under their exact name.  So let
    [n] be a name that lowering changes, and let no custom class of
    another name be called [lower n].  Then adding the custom classes
    leaves the entry under [lower n] as it was; it is the wrapped built-in
    class whenever a known built-in class is named [n]; and a custom
    class named [n] sits under the key [n], another key. *)
Theorem load_model_custom_optimizer_key (optimizer_modules : list string)
    (custom_optimizers : list pyclass) (n : string) :
  lower n <> n ->
  (forall cls, cls ∈ custom_optimizers -> __name__ cls <> n ->
               __name__ cls <> lower n) ->
  (forall k,
     horovod_objects optimizer_modules None None !! k
     = wrap_optimizer <$>
         last_keyed (fun subclass => lower (__name__ subclass)) k
           (known_optimizers optimizer_modules))
  /\ (forall k,
        horovod_objects optimizer_modules (Some custom_optimizers) None !! k
        = match last_keyed __name__ k custom_optimizers with
          | Some cls => Some (wrap_optimizer cls)
          | None => horovod_objects optimizer_modules None None !! k
          end)
  /\ horovod_objects optimizer_modules (Some custom_optimizers) None !! lower n
     = horovod_objects optimizer_modules None None !! lower n
  /\ (forall subclass,
        subclass ∈ Optimizer___subclasses__ ->
        __module__ subclass ∈ optimizer_modules ->
        __name__ subclass = n ->
        exists b,
          b ∈ known_optimizers optimizer_modules
          /\ lower (__name__ b) = lower n
          /\ horovod_objects optimizer_modules (Some custom_optimizers) None
               !! lower n
             = Some (wrap_optimizer b))
  /\ (forall cls,
        cls ∈ custom_optimizers -> __name__ cls = n ->
        exists c,
          c ∈ custom_optimizers
          /\ __name__ c = n
          /\ horovod_objects optimizer_modules (Some custom_optimizers) None
               !! n
             = Some (wrap_optimizer c)).
Proof.
  intros Hn Hcs.
  assert (last_keyed __name__ (lower n) custom_optimizers = None) as Hnone.
  { apply last_keyed_None. intros c Hc.
    destruct (decide (__name__ c = n)) as [->|Hne]; [congruence|by apply Hcs]. }
  assert (horovod_objects optimizer_modules (Some custom_optimizers) None !! lower n
          = horovod_objects optimizer_modules None None !! lower n) as Hkept.
  { rewrite !horovod_objects_lookup. cbn [mbind option_bind]. by rewrite Hnone. }
  split_and!.
  - intros k. by rewrite horovod_objects_lookup.
  - intros k. by rewrite !horovod_objects_lookup.
  - done.
  - intros sc Hsc Hm Hname. rewrite Hkept, horovod_objects_lookup.
    cbn [mbind option_bind].
    assert (sc ∈ known_optimizers optimizer_modules) as Hknown.
    { unfold known_optimizers. apply list_elem_of_In, List.filter_In.
      split; [by apply list_elem_of_In|by apply bool_decide_eq_true]. }
    destruct (@last_keyed_is_Some (fun c => lower (__name__ c)) (lower n)
                (known_optimizers optimizer_modules) sc Hknown)
      as [b Hb]; [by rewrite Hname|].
    exists b. rewrite Hb. apply last_keyed_Some in Hb as [Hin Hkey].
    by split_and!.
  - intros cls Hcls Hname. rewrite horovod_objects_lookup.
    cbn [mbind option_bind].
    destruct (@last_keyed_is_Some __name__ n custom_optimizers cls Hcls Hname)
      as [c Hc].
    exists c. rewrite Hc. apply last_keyed_Some in Hc as [Hin Hkey].
    by split_and!.
Qed.
End LoadModel.

Definition sample_subclasses : list pyclass :=
  [Class "Adam" "keras.optimizers"; Class "SGD" "keras.optimizers";
   Class "Ftrl" "elsewhere"].

Definition sample_wrap (c : pyclass) : pyclass := TypeNew (__name__ c) c.

Definition sample_custom : list pyclass := [Class "Adam" "my_optimizers"].

Example ascii_lower_Adam : ascii_lower "Adam" = "adam".
Proof. reflexivity. Qed.

Example load_model_sample_keys :
  horovod_objects sample_subclasses sample_wrap ascii_lower ["keras.optimizers"]
    (Some sample_custom) None !! "adam"
  = Some (sample_wrap (Class "Adam" "keras.optimizers"))
  /\ horovod_objects sample_subclasses sample_wrap ascii_lower
       ["keras.optimizers"] (Some sample_custom) None !! "Adam"
     = Some (sample_wrap (Class "Adam" "my_optimizers"))
  /\ horovod_objects sample_subclasses sample_wrap ascii_lower
       ["keras.optimizers"] (Some sample_custom) None !! "ftrl"
     = None.
Proof. rewrite !horovod_objects_lookup. by split_and!. Qed.

Lemma load_model_custom_optimizer_key_witness :
  horovod_objects sample_subclasses sample_wrap ascii_lower ["keras.optimizers"]
    (Some sample_custom) None !! ascii_lower "Adam"
  = horovod_objects sample_subclasses sample_wrap ascii_lower
      ["keras.optimizers"] None None !! ascii_lower "Adam"
  /\ (exists b,
        b ∈ known_optimizers sample_subclasses ["keras.optimizers"]
        /\ ascii_lower (__name__ b) = ascii_lower "Adam"
        /\ horovod_objects sample_subclasses sample_wrap ascii_lower
             ["keras.optimizers"] (Some sample_custom) None
             !! ascii_lower "Adam"
           = Some (sample_wrap b))
  /\ (exists c,
        c ∈ sample_custom
        /\ __name__ c = "Adam"
        /\ horovod_objects sample_subclasses sample_wrap ascii_lower
             ["keras.optimizers"] (Some sample_custom) None !! "Adam"
           = Some (sample_wrap c)).
Proof.
  assert (ascii_lower "Adam" <> "Adam") as Hn by (intros [=]).
  assert (forall cls, cls ∈ sample_custom -> __name__ cls <> "Adam" ->
                      __name__ cls <> ascii_lower "Adam") as Hcs.
  { intros cls Hin. apply list_elem_of_In in Hin. cbn in Hin.
    destruct Hin as [<-|[]]. intros Hne. by destruct Hne. }
  destruct (@load_model_custom_optimizer_key pyclass sample_subclasses
              sample_wrap ascii_lower ["keras.optimizers"] sample_custom
              "Adam" Hn Hcs)
    as (_ & _ & H3 & H4 & H5).
  split_and!.
  - exact H3.
  - apply (H4 (Class "Adam" "keras.optimizers")).
    + apply list_elem_of_In. cbn. tauto.
    + apply list_elem_of_In. cbn. tauto.
    + reflexivity.
  - apply (H5 (Class "Adam" "my_optimizers")).
    + apply list_elem_of_In. cbn. tauto.
    + reflexivity.
Defined.

(** * Further properties *)

(** ** Exceptions and the log *)

(** The call of a log entry returned. *)
Definition succeeded (e : entry) : bool :=
  match e_resp e with inr _ => true | inl _ => false end.

(** Programs with no [raise] of their own. *)
Inductive raise_free {St : Type} : forall {A : Type}, prog St A -> Prop :=
  | raise_free_Ret {A} (a : A) : raise_free (Ret a)
  | raise_free_GetSelf {A} (k : St -> prog St A) :
      (forall s, raise_free (k s)) -> raise_free (GetSelf k)
  | raise_free_SetSelf {A} s (k : prog St A) :
      raise_free k -> raise_free (SetSelf s k)
  | raise_free_Ext {A} c (k : resp c -> prog St A) :
      (forall r, raise_free (k r)) -> raise_free (Ext c k)
  | raise_free_With {A B} sc (body : prog St B) (k : B -> prog St A) :
      raise_free body -> (forall b, raise_free (k b)) ->
      raise_free (With sc body k).

Lemma raise_free_bind {St A B} (p : prog St A) (f : A -> prog St B) :
  raise_free p -> (forall a, raise_free (f a)) -> raise_free (bind p f).
Proof.
  intros Hp. revert B f.
  induction Hp as [A a|A k _ IH|A st k _ IH|A c k _ IH|A C sc body k Hb _ _ IH];
    intros B f Hf; unfold bind; fold (@bind St).
  - apply Hf.
  - constructor. intros s. by apply IH.
  - constructor. by apply IH.
  - constructor. intros r. by apply IH.
  - constructor; [done|]. intros b. by apply IH.
Qed.

Lemma raise_free_ext {St} c : raise_free (ext c : prog St _).
Proof. constructor. intros r. constructor. Qed.

(** The shape of the log of a program that raises nothing itself: every
    call but the last returned, and the run ends in an exception exactly
    when the last call was answered with it. *)
Definition log_of_outcome {A} (l : list entry) (o : exn + A) : Prop :=
  match o with
  | inr _ => Forall (fun e => succeeded e = true) l
  | inl x =>
      exists l' ctx c,
        l = l' ++ [Entry ctx c (inl x)]
        /\ Forall (fun e => succeeded e = true) l'
  end.

Lemma raise_free_run (E : env) {St A} (p : prog St A) :
  raise_free p ->
  forall ctx self s,
    log_of_outcome (emitted (run E p ctx self s)) (outcome (run E p ctx self s)).
Proof.
  induction 1 as [A a|A k _ IH|A st k _ IH|A c k _ IH|A B sc body k _ IHb _ IH];
    intros ctx self s; unfold run; fold (@run E St).
  - constructor.
  - apply IH.
  - apply IH.
  - destruct (handle E c s) as [[x|v] s1]; cbn.
    + exists [], ctx, c. split; [done|constructor].
    + specialize (IH v ctx self s1).
      destruct (run E (k v) ctx self s1) as [[x|a] sa ea em]; cbn in *.
      * destruct IH as (l' & ctx' & c' & -> & Hl).
        exists (Entry ctx c (inr v) :: l'), ctx', c'. split; [done|].
        by constructor.
      * by constructor.
  - specialize (IHb (sc :: ctx) self s).
    destruct (run E body (sc :: ctx) self s) as [[x|b] sa ea em]; cbn in *.
    + done.
    + specialize (IH b ctx sa ea).
      destruct (run E (k b) ctx sa ea) as [[x|a] sa' ea' em']; cbn in *.
      * destruct IH as (l' & ctx' & c' & -> & Hl).
        exists (em ++ l'), ctx', c'. rewrite app_assoc. split; [done|].
        by apply Forall_app.
      * by apply Forall_app.
Qed.

(** An environment that answers the calls of the class [P] with the
    exception [x] and leaves the others to [E]. *)
Definition raising_on (P : call -> bool) (x : exn) (E : env) : env :=
  Env (fun c s => if P c then (inl x, s) else handle E c s).

Lemma raise_free_allreduce_grads_loop {St} fn gs acc :
  raise_free (allreduce_grads_loop fn gs acc : prog St _).
Proof.
  revert acc. induction gs as [|[g|] gs IH]; intros acc; cbn [allreduce_grads_loop].
  - constructor.
  - apply raise_free_bind.
    + destruct (_ && _); [|constructor].
      apply raise_free_bind; [apply raise_free_ext|]. intros n; constructor.
    + intros g'. apply raise_free_bind; [apply raise_free_ext|]. intros r. apply IH.
  - apply IH.
Qed.

Lemma raise_free_allreduce_grads {St} fn gs :
  raise_free (allreduce_grads fn gs : prog St _).
Proof.
  unfold allreduce_grads, with_. constructor.
  - apply raise_free_allreduce_grads_loop.
  - intros b. constructor.
Qed.

(** What every call of [allreduce_grads] looks like. *)
Definition reduction_entry (fn : allreduce_grads_fn) (ctx : list scope)
    (e : entry) : Prop :=
  e_ctx e = name_scope (fn_name_scope fn) :: ctx
  /\ match e_call e with
     | hvd_allreduce _ dd ds c =>
         dd = fn_device_dense fn /\ ds = fn_device_sparse fn
         /\ c = fn_compression fn
     | tf_convert_to_tensor t =>
         fn_sparse_as_dense fn = true /\ is_IndexedSlices t = true
     | _ => False
     end.

Lemma allreduce_grads_loop_entries (E : env) {St} fn gs acc ctx (self : St) s :
  Forall (fun e => e_ctx e = ctx
                   /\ match e_call e with
                      | hvd_allreduce _ dd ds c =>
                          dd = fn_device_dense fn /\ ds = fn_device_sparse fn
                          /\ c = fn_compression fn
                      | tf_convert_to_tensor t =>
                          fn_sparse_as_dense fn = true /\ is_IndexedSlices t = true
                      | _ => False
                      end)
    (emitted (run E (allreduce_grads_loop fn gs acc) ctx self s)).
Proof.
  revert acc s. induction gs as [|[g|] gs IH]; intros acc s; cbn [allreduce_grads_loop].
  - constructor.
  - destruct (fn_sparse_as_dense fn && is_IndexedSlices g) eqn:Hc; run_step.
    + apply andb_prop in Hc as [Hsad Hsp].
      destruct (handle E (tf_convert_to_tensor g) s) as [[x|n] s1]; run_step;
        [by repeat constructor|].
      destruct (handle E (hvd_allreduce _ _ _ _) _) as [[x|r] s2]; run_step;
        [by repeat constructor|].
      constructor; [done|]. constructor; [done|]. apply IH.
    + destruct (handle E (hvd_allreduce _ _ _ _) _) as [[x|r] s2]; run_step;
        [by repeat constructor|].
      constructor; [done|]. apply IH.
  - apply IH.
Qed.

(** X1.  [allreduce_grads] raises nothing of its own: when it ends in an
    exception, that exception is the answer of the last call it made, a
    collective or a conversion; every earlier call returned, nothing is
    called afterwards and the instance is as it was. *)
Theorem allreduce_grads_propagates (E : env) (St : Type) (fn : allreduce_grads_fn)
    (gs : list grad) (ctx : list scope) (self : St) (s : env_state E) (x : exn) :
  outcome (run E (allreduce_grads fn gs) ctx self s) = inl x ->
  exists (l : list entry) (c : call),
    emitted (run E (allreduce_grads fn gs) ctx self s)
    = l ++ [Entry (name_scope (fn_name_scope fn) :: ctx) c (inl x)]
    /\ is_reduction_call c = true
    /\ Forall (fun e => succeeded e = true) l
    /\ self_after (run E (allreduce_grads fn gs) ctx self s) = self.
Proof.
  intros Hx.
  pose proof (raise_free_run E (raise_free_allreduce_grads fn gs) ctx self s) as Hlog.
  rewrite Hx in Hlog. destruct Hlog as (l & ctx' & c & Hl & Hok).
  assert (Forall (reduction_entry fn ctx)
            (emitted (run E (allreduce_grads fn gs) ctx self s))) as Hall.
  { unfold allreduce_grads. rewrite run_with_. apply allreduce_grads_loop_entries. }
  rewrite Hl in Hall. apply Forall_app in Hall as [_ Hlast].
  apply Forall_singleton in Hlast as [Hctx Hcall]. cbn in Hctx, Hcall. subst ctx'.
  exists l, c. split_and!; try done.
  - by destruct c.
  - unfold allreduce_grads. rewrite run_with_. apply allreduce_grads_loop_self.
Qed.

(** The collective fails on sparse tensors. *)
Definition sparse_fails : call -> bool :=
  fun c => match c with
           | hvd_allreduce (IndexedSlices _) _ _ _ => true
           | _ => false
           end.

Lemma allreduce_grads_propagates_witness :
  exists (l : list entry) (c : call),
    emitted (run (raising_on sparse_fails (ExternalError 1) (sample_env 2 false))
               (allreduce_grads (sample_fn false) sample_grads) [] tt 0%N)
    = l ++ [Entry [name_scope (fn_name_scope (sample_fn false))] c
              (inl (ExternalError 1))]
    /\ is_reduction_call c = true
    /\ Forall (fun e => succeeded e = true) l
    /\ self_after (run (raising_on sparse_fails (ExternalError 1) (sample_env 2 false))
                     (allreduce_grads (sample_fn false) sample_grads) [] tt 0%N)
       = tt.
Proof.
  apply (@allreduce_grads_propagates
           (raising_on sparse_fails (ExternalError 1) (sample_env 2 false))
           unit (sample_fn false) sample_grads [] tt 0%N (ExternalError 1)).
  reflexivity.
Defined.

(** X2.  On every run, also one that an exception cuts short, every call
    of [allreduce_grads] is made inside [tf.name_scope(name_scope)], put
    on top of the blocks open at the call; it is either [hvd.allreduce]
    with the [device_dense], [device_sparse] and [compression] the closure
    was made with, or [tf.convert_to_tensor] on a sparse tensor with
    [sparse_as_dense] set. *)
Theorem allreduce_grads_calls (E : env) (St : Type) (fn : allreduce_grads_fn)
    (gs : list grad) (ctx : list scope) (self : St) (s : env_state E) :
  Forall (reduction_entry fn ctx)
    (emitted (run E (allreduce_grads fn gs) ctx self s)).
Proof.
  unfold allreduce_grads. rewrite run_with_. apply allreduce_grads_loop_entries.
Qed.

(** A result whose returned value is mapped. *)
Definition map_outcome {St S A B} (f : A -> B) (r : result St S A) : result St S B :=
  Result (match outcome r with inl x => inl x | inr a => inr (f a) end)
    (self_after r) (env_after r) (emitted r).

(** The list the loop appends to is only ever extended. *)
Lemma allreduce_grads_loop_acc (E : env) {St} fn gs acc ctx (self : St) s :
  run E (allreduce_grads_loop fn gs acc) ctx self s
  = map_outcome (app acc) (run E (allreduce_grads_loop fn gs []) ctx self s).
Proof.
  revert acc s. induction gs as [|[g|] gs IH]; intros acc s; cbn [allreduce_grads_loop].
  - run_step. unfold map_outcome; cbn. by rewrite app_nil_r.
  - destruct (fn_sparse_as_dense fn && is_IndexedSlices g); run_step.
    + destruct (handle E (tf_convert_to_tensor g) s) as [[x|n] s1]; run_step;
        [done|].
      destruct (handle E (hvd_allreduce _ _ _ _) _) as [[x|r] s2]; run_step;
        [done|].
      rewrite (IH (acc ++ [Some r])), (IH ([] ++ [Some r])).
      unfold map_outcome; cbn.
      destruct (outcome (run E (allreduce_grads_loop fn gs []) ctx self s2));
        cbn; [done|]. by rewrite <- app_assoc.
    + destruct (handle E (hvd_allreduce _ _ _ _) _) as [[x|r] s2]; run_step;
        [done|].
      rewrite (IH (acc ++ [Some r])), (IH ([] ++ [Some r])).
      unfold map_outcome; cbn.
      destruct (outcome (run E (allreduce_grads_loop fn gs []) ctx self s2));
        cbn; [done|]. by rewrite <- app_assoc.
  - rewrite (IH (acc ++ [None])), (IH ([] ++ [None])).
    unfold map_outcome; cbn.
    destruct (outcome (run E (allreduce_grads_loop fn gs []) ctx self s));
      cbn; [done|]. by rewrite <- app_assoc.
Qed.

Lemma allreduce_grads_loop_app (E : env) {St} fn gs1 gs2 acc ctx (self : St) s :
  run E (allreduce_grads_loop fn (gs1 ++ gs2) acc) ctx self s
  = then_ E (run E (allreduce_grads_loop fn gs1 acc) ctx self s)
      (fun acc' => run E (allreduce_grads_loop fn gs2 acc')) ctx.
Proof.
  revert acc s. induction gs1 as [|[g|] gs1 IH]; intros acc s;
    cbn [allreduce_grads_loop app].
  - run_step. unfold then_; cbn.
    by destruct (run E (allreduce_grads_loop fn gs2 acc) ctx self s) as [[?|?] ? ? ?].
  - destruct (fn_sparse_as_dense fn && is_IndexedSlices g); run_step.
    + destruct (handle E (tf_convert_to_tensor g) s) as [[x|n] s1]; run_step;
        [done|].
      destruct (handle E (hvd_allreduce _ _ _ _) _) as [[x|r] s2]; run_step;
        [done|].
      rewrite IH. unfold then_; cbn.
      by destruct (outcome (run E (allreduce_grads_loop fn gs1 _) ctx self s2)).
    + destruct (handle E (hvd_allreduce _ _ _ _) _) as [[x|r] s2]; run_step;
        [done|].
      rewrite IH. unfold then_; cbn.
      by destruct (outcome (run E (allreduce_grads_loop fn gs1 _) ctx self s2)).
  - apply IH.
Qed.

(** X3.  A batch made of [None] only, the empty batch included, comes
    back as it is, with no external call and no change to the instance or
    the environment. *)
Theorem allreduce_grads_all_None (E : env) (St : Type) (fn : allreduce_grads_fn)
    (gs : list grad) (ctx : list scope) (self : St) (s : env_state E) :
  Forall (fun g => g = None) gs ->
  run E (allreduce_grads fn gs) ctx self s = Result (inr gs) self s [].
Proof.
  intros Hgs. unfold allreduce_grads. rewrite run_with_.
  generalize (name_scope (fn_name_scope fn) :: ctx) as ctx'. intros ctx'.
  induction Hgs as [|g gs -> _ IH]; [reflexivity|].
  cbn [allreduce_grads_loop]. rewrite allreduce_grads_loop_acc, IH.
  reflexivity.
Qed.

Lemma allreduce_grads_all_None_witness :
  run (sample_env 2 false) (allreduce_grads (sample_fn true) [None; None; None])
    [] tt 0%N
  = Result (inr [None; None; None]) tt 0%N [].
Proof.
  apply (@allreduce_grads_all_None (sample_env 2 false) unit (sample_fn true)
           [None; None; None] [] tt 0%N).
  by repeat constructor.
Defined.

(** X4.  Reducing two batches one after the other is reducing their
    concatenation: when the first batch returns [rs1] and the second,
    started where the first ended, returns [rs2], the concatenated batch
    returns [rs1 ++ rs2] with the two logs in a row and ends in the same
    state. *)
Theorem allreduce_grads_app (E : env) (St : Type) (fn : allreduce_grads_fn)
    (gs1 gs2 rs1 rs2 : list grad) (ctx : list scope)
    (self self1 self2 : St) (s s1 s2 : env_state E) (l1 l2 : list entry) :
  run E (allreduce_grads fn gs1) ctx self s = Result (inr rs1) self1 s1 l1 ->
  run E (allreduce_grads fn gs2) ctx self1 s1 = Result (inr rs2) self2 s2 l2 ->
  run E (allreduce_grads fn (gs1 ++ gs2)) ctx self s
  = Result (inr (rs1 ++ rs2)) self2 s2 (l1 ++ l2).
Proof.
  unfold allreduce_grads. rewrite !run_with_. intros H1 H2.
  rewrite allreduce_grads_loop_app, H1. unfold then_; cbn.
  rewrite allreduce_grads_loop_acc, H2. unfold map_outcome; cbn. done.
Qed.

Lemma allreduce_grads_app_witness :
  run (sample_env 2 false)
    (allreduce_grads (sample_fn true)
       ([Some (Tensor 10); None] ++ [Some (IndexedSlices 11)])) [] tt 0%N
  = Result (inr ([Some (Tensor 0); None] ++ [Some (Tensor 2)])) tt 3%N
      (emitted (run (sample_env 2 false)
                  (allreduce_grads (sample_fn true) [Some (Tensor 10); None])
                  [] tt 0%N)
       ++ emitted (run (sample_env 2 false)
                     (allreduce_grads (sample_fn true) [Some (IndexedSlices 11)])
                     [] tt 1%N)).
Proof.
  apply (@allreduce_grads_app (sample_env 2 false) unit (sample_fn true)
           [Some (Tensor 10); None] [Some (IndexedSlices 11)]
           [Some (Tensor 0); None] [Some (Tensor 2)] [] tt tt tt 0%N 1%N 3%N);
    reflexivity.
Defined.

(** ** More on the methods *)

(** X5.  Eager mode, more than one participant: [_allreduce] makes two
    calls, [hvd.size()] and the helper's [compute_gradients] on the stored
    gradients, both in the context of the caller, and what the helper
    answers, a list or an exception, is the outcome.  There is no session,
    no [init_aggregation_vars], no profiling, no [tf.identity] and no
    dependency block. *)
Theorem _allreduce_eager (E : env) (w : wrapper) (gs : list grad)
    (ctx : list scope) (n : Z) (s s1 : env_state E) :
  _executing_eagerly w = true ->
  grads w = Some gs ->
  handle E hvd_size s = (inr n, s1) ->
  (1 < n)%Z ->
  run E _allreduce ctx w s
  = Result (fst (handle E (agg_compute_gradients (_agg_helper w) gs) s1))
      (set__aggregated_gradients true w)
      (snd (handle E (agg_compute_gradients (_agg_helper w) gs) s1))
      [ Entry ctx hvd_size (inr n);
        Entry ctx (agg_compute_gradients (_agg_helper w) gs)
          (fst (handle E (agg_compute_gradients (_agg_helper w) gs) s1)) ].
Proof.
  intros Heager Hg Hsize Hn.
  rewrite run__allreduce. unfold _allreduce_body, self_grads.
  destruct w as [cl dd ds cp sad ag eager h ph g b].
  cbn in Heager, Hg; subst.
  self_step. rewrite !Hsize. self_step.
  replace (n >? 1)%Z with true by (symmetry; apply Z.gtb_lt; lia).
  self_step.
  destruct (handle E (agg_compute_gradients h gs) s1) as [[x|r] s2]; reflexivity.
Qed.

Lemma _allreduce_eager_witness :
  run (sample_env 2 true) _allreduce [] (sample_wrapper true (Some sample_grads)) 0%N
  = Result (inr [Some (Tensor 0); None; Some (Tensor 1)])
      (set__aggregated_gradients true (sample_wrapper true (Some sample_grads)))
      2%N
      [ Entry [] hvd_size (inr 2%Z);
        Entry [] (agg_compute_gradients (AggHelper 2) sample_grads)
          (inr [Some (Tensor 0); None; Some (Tensor 1)]) ].
Proof.
  apply (@_allreduce_eager (sample_env 2 true)
           (sample_wrapper true (Some sample_grads)) sample_grads [] 2%Z 0%N 0%N);
    first [reflexivity | lia].
Defined.

(** X6.  The two entry points meet: once the wrapped optimizer has
    returned the gradients [g], [get_gradients] goes on exactly as
    [_aggregate_gradients] does on these gradients paired with any
    variables, one per gradient. *)
Theorem get_gradients_as__aggregate_gradients (E : env) (loss params : pyobj)
    (ctx : list scope) (w : wrapper) (s s' : env_state E) (g : list grad)
    (vars : list pyobj) :
  handle E (super_get_gradients (__base__ (__class__ w)) loss params) s
  = (inr g, s') ->
  length vars = length g ->
  run E (get_gradients loss params) ctx w s
  = prepend
      [Entry ctx (super_get_gradients (__base__ (__class__ w)) loss params) (inr g)]
      (run E (_aggregate_gradients (zip g vars)) ctx w s').
Proof.
  intros Hg Hlen.
  rewrite (@run_get_gradients_ok E loss params ctx w s g s' Hg).
  rewrite run__aggregate_gradients.
  replace (map fst (zip g vars)) with g; [done|].
  symmetry. apply fst_zip. lia.
Qed.

Lemma get_gradients_as__aggregate_gradients_witness :
  run (sample_env 2 false) (get_gradients (PyObj 31) (PyObj 32)) []
    (sample_wrapper false None) 0%N
  = prepend
      [Entry [] (super_get_gradients (Class "Adam" "keras.optimizers")
                   (PyObj 31) (PyObj 32))
         (inr [Some (Tensor 100); Some (IndexedSlices 101)])]
      (run (sample_env 2 false)
         (_aggregate_gradients
            (zip [Some (Tensor 100); Some (IndexedSlices 101)] [PyObj 40; PyObj 41]))
         [] (sample_wrapper false None) 0%N).
Proof.
  apply (@get_gradients_as__aggregate_gradients (sample_env 2 false)
           (PyObj 31) (PyObj 32) [] (sample_wrapper false None) 0%N 0%N
           [Some (Tensor 100); Some (IndexedSlices 101)] [PyObj 40; PyObj 41]);
    reflexivity.
Defined.

(** ** More on construction *)

Definition is_super___init__ (c : call) : bool :=
  match c with super___init__ _ _ => true | _ => false end.

Section ConstructionFacts.
Variable name : option string.
Variables device_dense device_sparse compression : pyobj.
Variable sparse_as_dense : bool.
Variables aggregation_frequency grad_updated_sizes_dict : pyobj.
Variables profile_frequency profile_filename : pyobj.
Variable average_aggregated_gradients : pyobj.

Local Abbreviation init := (__init__ name device_dense device_sparse compression
  sparse_as_dense aggregation_frequency grad_updated_sizes_dict
  profile_frequency profile_filename average_aggregated_gradients).
Local Abbreviation create := (create_distributed_optimizer name device_dense
  device_sparse compression sparse_as_dense aggregation_frequency
  grad_updated_sizes_dict profile_frequency profile_filename
  average_aggregated_gradients).


(** The log of an [__init__] that returned the instance [w]. *)
Definition construction_log (ctx : list scope) (cls : pyclass)
    (kwargs : kwargs_t) (w : wrapper) : list entry :=
  let fn := _make_allreduce_grads_fn (default_name name cls +:+ "_Allreduce")
              sparse_as_dense device_dense device_sparse compression in
  Entry ctx hvd__executing_eagerly (inr (_executing_eagerly w))
  :: match _profile_helper w with
     | None =>
         [Entry ctx (LocalGradientAggregationHelperEager aggregation_frequency
                       fn sparse_as_dense average_aggregated_gradients)
            (inr (_agg_helper w))]
     | Some p =>
         [Entry ctx (LocalGradientAggregationHelper aggregation_frequency fn
                       sparse_as_dense grad_updated_sizes_dict
                       average_aggregated_gradients)
            (inr (_agg_helper w));
          Entry ctx (TFProfileHelper profile_frequency profile_filename)
            (inr p)]
     end
  ++ [Entry ctx (super___init__ (__base__ cls) kwargs) (inr (base_state w))].

Lemma __init___log (E : env) {St} cls kwargs ctx (self : St) s :
  (forall w,
     outcome (run E (init cls kwargs) ctx self s) = inr w ->
     emitted (run E (init cls kwargs) ctx self s)
     = construction_log ctx cls kwargs w)
  /\ (forall x,
        outcome (run E (init cls kwargs) ctx self s) = inl x ->
        exists l c,
          emitted (run E (init cls kwargs) ctx self s)
          = l ++ [Entry ctx c (inl x)]
          /\ Forall (fun e => succeeded e = true
                              /\ is_super___init__ (e_call e) = false) l).
Proof.
  unfold __init__, construction_log. run_step.
  destruct (handle E hvd__executing_eagerly s) as [[x|[|]] s1]; run_step;
    cbn [negb].
  - split; [done|]. intros x' [= <-]. eexists [], _. by split.
  - run_step.
    destruct (handle E (LocalGradientAggregationHelperEager _ _ _ _) s1)
      as [[x|h] s2]; run_step.
    { split; [done|]. intros x' [= <-]. eexists [_], _.
      split; [done|]. by repeat constructor. }
    destruct (handle E (super___init__ _ _) s2) as [[x|base] s3]; run_step.
    { split; [done|]. intros x' [= <-]. eexists [_; _], _.
      split; [done|]. by repeat constructor. }
    split; [|done]. by intros w [= <-].
  - run_step.
    destruct (handle E (LocalGradientAggregationHelper _ _ _ _ _) s1)
      as [[x|h] s2]; run_step.
    { split; [done|]. intros x' [= <-]. eexists [_], _.
      split; [done|]. by repeat constructor. }
    destruct (handle E (TFProfileHelper _ _) s2) as [[x|p] s3]; run_step.
    { split; [done|]. intros x' [= <-]. eexists [_; _], _.
      split; [done|]. by repeat constructor. }
    destruct (handle E (super___init__ _ _) s3) as [[x|base] s4]; run_step.
    { split; [done|]. intros x' [= <-]. eexists [_; _; _], _.
      split; [done|]. by repeat constructor. }
    split; [|done]. by intros w [= <-].
Qed.


(** X9.  [create_distributed_optimizer] raises nothing of its own.  When
    it ends in an exception, that exception is the answer of its last
    call; every earlier call returned, and the initialiser of the base
    class is not among them: a failure of [get_config], of the mode query
    or of a helper's constructor leaves the base class uninitialised. *)
Theorem create_distributed_optimizer_propagates (E : env) (St : Type)
    (o : optimizer) (ctx : list scope) (self : St) (s : env_state E) (x : exn) :
  outcome (run E (create o) ctx self s) = inl x ->
  exists (l : list entry) (c : call),
    emitted (run E (create o) ctx self s) = l ++ [Entry ctx c (inl x)]
    /\ Forall (fun e => succeeded e = true
                        /\ is_super___init__ (e_call e) = false) l.
Proof.
  destruct (handle E (optimizer_get_config o) s) as [[x'|config] s1] eqn:Hc.
  - unfold create_distributed_optimizer. run_step. rewrite !Hc. run_step.
    intros [= <-]. eexists [], _. by split.
  - rewrite (@run_create_distributed_optimizer name device_dense device_sparse
               compression sparse_as_dense aggregation_frequency
               grad_updated_sizes_dict profile_frequency profile_filename
               average_aggregated_gradients E St o ctx self s config s1 Hc).
    unfold prepend, from_config; cbn [outcome emitted app]. intros Hx.
    destruct (@__init___log E St (TypeNew (__name__ (opt_class o)) (opt_class o))
                config ctx self s1) as [_ Hlog].
    destruct (Hlog x Hx) as (l & c & -> & Hl).
    eexists (_ :: l), c. split; [done|]. by constructor.
Qed.
End ConstructionFacts.

(** The deferred helper cannot be built. *)
Definition helper_fails : call -> bool :=
  fun c => match c with
           | LocalGradientAggregationHelper _ _ _ _ _ => true
           | _ => false
           end.


Lemma create_distributed_optimizer_propagates_witness :
  exists (l : list entry) (c : call),
    emitted (run (raising_on helper_fails (ValueError "frequency")
                    (sample_env 2 false)) sample_create [] tt 0%N)
    = l ++ [Entry [] c (inl (ValueError "frequency"))]
    /\ Forall (fun e => succeeded e = true
                        /\ is_super___init__ (e_call e) = false) l.
Proof.
  apply (@create_distributed_optimizer_propagates None (PyObj 1) (PyObj 2)
           (PyObj 3) true (PyObj 4) (PyObj 5) (PyObj 6) (PyObj 7) (PyObj 8)
           (raising_on helper_fails (ValueError "frequency") (sample_env 2 false))
           unit sample_optimizer [] tt 0%N (ValueError "frequency")).
  reflexivity.
Defined.

(** ** More on load_model *)

Section LoadModelFacts.
Variable V : Type.
Variable Optimizer___subclasses__ : list pyclass.
Variable wrap_optimizer : pyclass -> V.
Variable lower : string -> string.

Local Abbreviation table :=
  (horovod_objects Optimizer___subclasses__ wrap_optimizer lower).
Local Abbreviation known := (known_optimizers Optimizer___subclasses__).

Lemma last_keyed_is_Some_iff (key : pyclass -> string) k l :
  is_Some (last_keyed key k l) <-> k ∈ map key l.
Proof.
  split.
  - intros [c Hc]. apply last_keyed_Some in Hc as [Hin <-].
    by apply list_elem_of_fmap_2.
  - intros (c & -> & Hin)%list_elem_of_fmap.
    by apply (@last_keyed_is_Some key (key c) l c).
Qed.

Lemma first_of_three_is_Some (a : option V) (b c : option pyclass) :
  is_Some (match a with
           | Some v => Some v
           | None => match b with
                     | Some x => Some (wrap_optimizer x)
                     | None => wrap_optimizer <$> c
                     end
           end)
  <-> (is_Some a \/ is_Some b) \/ is_Some c.
Proof. destruct a, b, c; rewrite !is_Some_alt; cbn; tauto. Qed.

(** X10.  The keys of the table are the keys of [custom_objects], the
    names of the classes of [custom_optimizers] and the lowercased names
    of the [Optimizer] subclasses that live in one of
    [optimizer_modules], and nothing else: a subclass from another module
    contributes no key. *)
Theorem horovod_objects_keys (optimizer_modules : list string)
    (custom_optimizers : option (list pyclass))
    (custom_objects : option (gmap string V)) :
  dom (table optimizer_modules custom_optimizers custom_objects)
  = from_option dom ∅ custom_objects
    ∪ list_to_set (map __name__ (default [] custom_optimizers))
    ∪ list_to_set (map (fun subclass => lower (__name__ subclass))
                     (known optimizer_modules)).
Proof.
  apply set_eq. intros k.
  rewrite elem_of_dom, horovod_objects_lookup, first_of_three_is_Some.
  rewrite !elem_of_union, !elem_of_list_to_set.
  rewrite <- !last_keyed_is_Some_iff.
  assert (is_Some (custom_objects ≫= (fun d => d !! k))
          <-> k ∈ from_option dom (∅ : gset string) custom_objects) as ->.
  { destruct custom_objects as [d|]; cbn; [by rewrite elem_of_dom|].
    rewrite is_Some_alt. set_solver. }
  assert (is_Some (custom_optimizers ≫= last_keyed __name__ k)
          <-> is_Some (last_keyed __name__ k (default [] custom_optimizers)))
    as ->; [|done].
  destruct custom_optimizers as [cs|]; cbn; [done|].
  by rewrite !is_Some_alt.
Qed.

(** X11.  An empty [custom_optimizers] or an empty [custom_objects] is
    the same as none; and with no custom input and no subclass in the
    listed modules the table is empty. *)
Theorem horovod_objects_empty_inputs (optimizer_modules : list string)
    (custom_optimizers : option (list pyclass))
    (custom_objects : option (gmap string V)) :
  table optimizer_modules (Some []) custom_objects
  = table optimizer_modules None custom_objects
  /\ table optimizer_modules custom_optimizers (Some ∅)
     = table optimizer_modules custom_optimizers None
  /\ (known optimizer_modules = [] ->
      table optimizer_modules None None = ∅).
Proof.
  split_and!.
  - apply map_eq. intros k. by rewrite !horovod_objects_lookup.
  - apply map_eq. intros k. rewrite !horovod_objects_lookup.
    cbn [mbind option_bind]. by rewrite lookup_empty.
  - intros Hk. apply map_eq. intros k. rewrite horovod_objects_lookup.
    cbn [mbind option_bind]. by rewrite Hk, lookup_empty.
Qed.
End LoadModelFacts.

Lemma horovod_objects_empty_inputs_witness :
  horovod_objects sample_subclasses sample_wrap ascii_lower ["no.such.module"]
    None None = ∅.
Proof.
  exact (proj2 (proj2 (@horovod_objects_empty_inputs pyclass sample_subclasses
                         sample_wrap ascii_lower ["no.such.module"] None None))
           eq_refl).
Defined.

(** * The module-level functions: _eval and the value collectives

    [_eval], [broadcast_global_variables], [allreduce], [allgather] and
    [broadcast] work on plain values and on the session of a Keras
    backend.  Their collaborators are other calls than the optimizer's, so
    they get a call language of their own; every value is opaque. *)

Module Backend.

Inductive call : Type :=
  | hvd__executing_eagerly
  | hvd_broadcast_global_variables (root_rank : pyobj)
  | hvd_allreduce (tensor average : pyobj)
  | hvd_allgather (tensor : pyobj)
  | hvd_broadcast (tensor root_rank : pyobj)
  | tf_constant (value name : pyobj)
  | backend_get_session (backend : pyobj)
  | session_run (session op_or_result : pyobj).

Definition resp (c : call) : Type :=
  match c with
  | hvd__executing_eagerly => bool
  | _ => pyobj
  end.

Record env : Type := Env {
  env_state : Type;
  handle : forall c : call, env_state -> (exn + resp c) * env_state
}.

Inductive prog (A : Type) : Type :=
  | Ret (a : A)
  | Ext (c : call) (k : resp c -> prog A).

Arguments Ret {A} a.
Arguments Ext {A} c k.

Fixpoint bind {A B} (p : prog A) (f : A -> prog B) : prog B :=
  match p with
  | Ret a => f a
  | Ext c k => Ext c (fun r => bind (k r) f)
  end.

Definition ext (c : call) : prog (resp c) := Ext c Ret.

Local Notation "x <-- p ;; q" := (bind p (fun x => q))
  (at level 100, p at next level, right associativity).

Record entry : Type := Entry {
  e_call : call;
  e_resp : exn + resp e_call
}.

Fixpoint run (E : env) {A} (p : prog A) (s : env_state E)
    : (exn + A) * env_state E * list entry :=
  match p with
  | Ret a => (inr a, s, [])
  | Ext c k =>
      let '(r, s1) := handle E c s in
      match r with
      | inl x => (inl x, s1, [Entry c r])
      | inr v =>
          let '(o, s2, l) := run E (k v) s1 in (o, s2, Entry c r :: l)
      end
  end.

Definition _eval (backend op_or_result : pyobj) : prog pyobj :=
  eager <-- ext hvd__executing_eagerly ;;
  if eager then Ret op_or_result
  else
    session <-- ext (backend_get_session backend) ;;
    ext (session_run session op_or_result).

(** Defined only when [hvd] has the attribute. *)
Definition broadcast_global_variables (hvd_has_broadcast_global_variables : bool)
    : option (pyobj -> pyobj -> prog pyobj) :=
  if hvd_has_broadcast_global_variables
  then Some (fun backend root_rank =>
               op <-- ext (hvd_broadcast_global_variables root_rank) ;;
               _eval backend op)
  else None.

Definition allreduce (backend value name average : pyobj) : prog pyobj :=
  t <-- ext (tf_constant value name) ;;
  op <-- ext (hvd_allreduce t average) ;;
  _eval backend op.

Definition allgather (backend value name : pyobj) : prog pyobj :=
  t <-- ext (tf_constant value name) ;;
  op <-- ext (hvd_allgather t) ;;
  _eval backend op.

Definition broadcast (backend value root_rank name : pyobj) : prog pyobj :=
  t <-- ext (tf_constant value name) ;;
  op <-- ext (hvd_broadcast t root_rank) ;;
  _eval backend op.

(** The calls that touch a session. *)
Definition is_session_call (c : call) : bool :=
  match c with
  | backend_get_session _ | session_run _ _ => true
  | _ => false
  end.

Definition calls (l : list entry) : list call := map e_call l.

(** An environment for examples: the mode is [eager]; every other call
    answers with a new object. *)
Definition sample_handle (eager : bool) (c : call) (n : N)
    : (exn + resp c) * N :=
  match c return (exn + resp c) * N with
  | hvd__executing_eagerly => (inr eager, n)
  | _ => (inr (PyObj n), (n + 1)%N)
  end.

Definition sample_env (eager : bool) : env := Env (sample_handle eager).

(** Membership in a list that is written out. *)
Ltac mem_inv H :=
  repeat match type of H with
         | _ ∈ [] => by apply not_elem_of_nil in H
         | _ ∈ _ :: _ => apply elem_of_cons in H as [H|H]
         end.

Ltac mem_tac :=
  repeat first [ apply elem_of_cons; left; reflexivity
               | apply elem_of_cons; right ].

Ltac eval_cases :=
  split; [done|];
  split; [intros b Hb; mem_inv Hb; try discriminate; by injection Hb as ->|];
  split; [intros sess' y Hy; mem_inv Hy; try discriminate;
          injection Hy as -> ->; (split_and!; [done|mem_tac|mem_tac])|];
  split; [intros v' Hv; try discriminate; injection Hv as <-;
          first [by left | right; eexists; mem_tac]|];
  lia.

(** X12.  [_eval] in eager mode gives back its argument and asks for
    nothing but the mode.  In any mode: a session is only ever asked of
    the backend that was passed; what is run in a session is the argument,
    in the session that backend returned, and only after the mode query
    answered deferred; a value returned is the argument itself or the
    answer of that run; and there are at most three calls. *)
Theorem _eval_session_use (E : env) (backend x : pyobj) (s : env_state E) :
  (fst (handle E hvd__executing_eagerly s) = inr true ->
   run E (_eval backend x) s
   = (inr x, snd (handle E hvd__executing_eagerly s),
      [Entry hvd__executing_eagerly (inr true)]))
  /\ (forall b, backend_get_session b ∈ calls (run E (_eval backend x) s).2 ->
                b = backend)
  /\ (forall sess y,
        session_run sess y ∈ calls (run E (_eval backend x) s).2 ->
        y = x
        /\ Entry (backend_get_session backend) (inr sess)
           ∈ (run E (_eval backend x) s).2
        /\ Entry hvd__executing_eagerly (inr false)
           ∈ (run E (_eval backend x) s).2)
  /\ (forall v, (run E (_eval backend x) s).1.1 = inr v ->
                v = x
                \/ exists sess, Entry (session_run sess x) (inr v)
                                ∈ (run E (_eval backend x) s).2)
  /\ length (run E (_eval backend x) s).2 <= 3.
Proof.
  unfold _eval, ext, calls; cbn [bind run].
  destruct (handle E hvd__executing_eagerly s) as [[e|[|]] s1]; cbn.
  - eval_cases.
  - eval_cases.
  - destruct (handle E (backend_get_session backend) s1) as [[e|sess] s2]; cbn.
    + eval_cases.
    + destruct (handle E (session_run sess x) s2) as [[e|v] s3]; cbn;
        eval_cases.
Qed.

Lemma _eval_session_use_witness :
  run (sample_env true) (_eval (PyObj 50) (PyObj 51)) 0%N
  = (inr (PyObj 51), 0%N, [Entry hvd__executing_eagerly (inr true)]).
Proof.
  exact (proj1 (@_eval_session_use (sample_env true) (PyObj 50) (PyObj 51) 0%N)
           eq_refl).
Defined.

(** The three collectives on values. *)
Inductive collective : Type :=
  | c_allreduce (average : pyobj)
  | c_allgather
  | c_broadcast (root_rank : pyobj).

(** The collective of each function, answered by the environment, and
    its record in the log. *)
Definition collective_answer (E : env) (k : collective) (tensor : pyobj)
    (s : env_state E) : (exn + pyobj) * env_state E :=
  match k with
  | c_allreduce average => handle E (hvd_allreduce tensor average) s
  | c_allgather => handle E (hvd_allgather tensor) s
  | c_broadcast root_rank => handle E (hvd_broadcast tensor root_rank) s
  end.

Definition collective_entry (k : collective) (tensor : pyobj)
    (r : exn + pyobj) : entry :=
  match k with
  | c_allreduce average => Entry (hvd_allreduce tensor average) r
  | c_allgather => Entry (hvd_allgather tensor) r
  | c_broadcast root_rank => Entry (hvd_broadcast tensor root_rank) r
  end.

Definition value_collective (k : collective) (backend value name : pyobj)
    : prog pyobj :=
  match k with
  | c_allreduce average => allreduce backend value name average
  | c_allgather => allgather backend value name
  | c_broadcast root_rank => broadcast backend value root_rank name
  end.

(** X13.  [allreduce], [allgather] and [broadcast] alike: the constant is
    made from the value under the given name, the collective is applied to
    that constant, and only then is the mode asked for.  In eager mode the
    answer of the collective is returned after these three calls, and no
    session is involved, whatever the backend would do if asked for one.
    In deferred mode the backend that was passed is asked for its session;
    if that raises, the exception is the outcome; otherwise the answer of
    the collective is run in that session, and what the run answers, a
    value or an exception, is the outcome. *)
Theorem value_collective_evaluates (E : env) (k : collective)
    (backend value name t op : pyobj) (eager : bool)
    (s s1 s2 s3 : env_state E) :
  handle E (tf_constant value name) s = (inr t, s1) ->
  collective_answer E k t s1 = (inr op, s2) ->
  handle E hvd__executing_eagerly s2 = (inr eager, s3) ->
  (eager = true ->
   run E (value_collective k backend value name) s
   = (inr op, s3,
      [ Entry (tf_constant value name) (inr t);
        collective_entry k t (inr op);
        Entry hvd__executing_eagerly (inr true) ]))
  /\ (eager = false ->
      forall (x : exn) (s4 : env_state E),
        handle E (backend_get_session backend) s3 = (inl x, s4) ->
        run E (value_collective k backend value name) s
        = (inl x, s4,
           [ Entry (tf_constant value name) (inr t);
             collective_entry k t (inr op);
             Entry hvd__executing_eagerly (inr false);
             Entry (backend_get_session backend) (inl x) ]))
  /\ (eager = false ->
      forall (sess : pyobj) (o : exn + pyobj) (s4 s5 : env_state E),
        handle E (backend_get_session backend) s3 = (inr sess, s4) ->
        handle E (session_run sess op) s4 = (o, s5) ->
        run E (value_collective k backend value name) s
        = (o, s5,
           [ Entry (tf_constant value name) (inr t);
             collective_entry k t (inr op);
             Entry hvd__executing_eagerly (inr false);
             Entry (backend_get_session backend) (inr sess);
             Entry (session_run sess op) o ])).
Proof.
  intros Ht Hop Heager.
  split_and!.
  - intros ->.
    destruct k as [average| |root_rank];
      unfold value_collective, allreduce, allgather, broadcast, _eval, ext;
      cbn [bind run collective_answer collective_entry] in *;
      by rewrite Ht, Hop, Heager.
  - intros -> x s4 Hsess.
    destruct k as [average| |root_rank];
      unfold value_collective, allreduce, allgather, broadcast, _eval, ext;
      cbn [bind run collective_answer collective_entry] in *;
      rewrite Ht, Hop, Heager; cbn [bind run]; by rewrite Hsess.
  - intros -> sess o s4 s5 Hsess Hrun.
    destruct k as [average| |root_rank];
      unfold value_collective, allreduce, allgather, broadcast, _eval, ext;
      cbn [bind run collective_answer collective_entry] in *;
      rewrite Ht, Hop, Heager; cbn [bind run]; rewrite Hsess, Hrun;
      by destruct o.
Qed.

(** An environment with no session to give: asking the backend for one
    raises. *)
Definition no_session_handle (eager : bool) (c : call) (n : N)
    : (exn + resp c) * N :=
  match c return (exn + resp c) * N with
  | hvd__executing_eagerly => (inr eager, n)
  | backend_get_session _ => (inl (Exception "no session"), n)
  | _ => (inr (PyObj n), (n + 1)%N)
  end.

Definition no_session_env (eager : bool) : env := Env (no_session_handle eager).

Lemma value_collective_evaluates_witness :
  run (no_session_env true)
    (value_collective (c_allreduce (PyObj 60)) (PyObj 50) (PyObj 61) (PyObj 62)) 0%N
  = (inr (PyObj 1), 2%N,
     [ Entry (tf_constant (PyObj 61) (PyObj 62)) (inr (PyObj 0));
       Entry (hvd_allreduce (PyObj 0) (PyObj 60)) (inr (PyObj 1));
       Entry hvd__executing_eagerly (inr true) ])
  /\ run (no_session_env false)
       (value_collective c_allgather (PyObj 50) (PyObj 61) (PyObj 62)) 0%N
     = (inl (Exception "no session"), 2%N,
        [ Entry (tf_constant (PyObj 61) (PyObj 62)) (inr (PyObj 0));
          Entry (hvd_allgather (PyObj 0)) (inr (PyObj 1));
          Entry hvd__executing_eagerly (inr false);
          Entry (backend_get_session (PyObj 50)) (inl (Exception "no session")) ])
  /\ run (sample_env false)
       (value_collective (c_broadcast (PyObj 63)) (PyObj 50) (PyObj 61) (PyObj 62))
       0%N
     = (inr (PyObj 3), 4%N,
        [ Entry (tf_constant (PyObj 61) (PyObj 62)) (inr (PyObj 0));
          Entry (hvd_broadcast (PyObj 0) (PyObj 63)) (inr (PyObj 1));
          Entry hvd__executing_eagerly (inr false);
          Entry (backend_get_session (PyObj 50)) (inr (PyObj 2));
          Entry (session_run (PyObj 2) (PyObj 1)) (inr (PyObj 3)) ]).
Proof.
  split_and!.
  - exact (proj1 (@value_collective_evaluates (no_session_env true)
             (c_allreduce (PyObj 60)) (PyObj 50) (PyObj 61) (PyObj 62)
             (PyObj 0) (PyObj 1) true 0%N 1%N 2%N 2%N
             eq_refl eq_refl eq_refl) eq_refl).
  - exact (proj1 (proj2 (@value_collective_evaluates (no_session_env false)
             c_allgather (PyObj 50) (PyObj 61) (PyObj 62)
             (PyObj 0) (PyObj 1) false 0%N 1%N 2%N 2%N
             eq_refl eq_refl eq_refl)) eq_refl (Exception "no session") 2%N
             eq_refl).
  - exact (proj2 (proj2 (@value_collective_evaluates (sample_env false)
             (c_broadcast (PyObj 63)) (PyObj 50) (PyObj 61) (PyObj 62)
             (PyObj 0) (PyObj 1) false 0%N 1%N 2%N 2%N
             eq_refl eq_refl eq_refl)) eq_refl (PyObj 2) (inr (PyObj 3))
             3%N 4%N eq_refl eq_refl).
Defined.

End Backend.
